(** * S3 storage helpers of Label Studio: [label_studio/io_storages/s3/utils.py]

    A shallow embedding of the module and the proofs of its specification.
    The module is plumbing around three external collaborators: the
    [boto3] SDK, the process environment read through [get_env], and
    Python's [urllib.parse] and [base64].  The SDK is kept abstract: every
    call into it is an event whose answer is supplied by a handler, so that
    each theorem holds whatever the SDK answers.  [urlparse] and base64 are
    modelled after CPython. *)

From Stdlib Require Import ZArith String Ascii List Lia Bool.
From Stdlib Require Import Strings.Byte.
From stdpp Require Import gmap strings list fin_maps.

Set Warnings "-register-all".
Local Open Scope string_scope.

(** ** Python values *)

(** Exceptions the module can meet.  [ClientError] and [NoCredentialsError]
    are botocore's; they are unrelated classes (the first derives from
    [Exception], the second from [BotoCoreError]).  [Exception] stands for
    any class that derives from none of the others. *)
Inductive exn : Type :=
| ClientError (msg : string)
| NoCredentialsError (msg : string)
| KeyError (key : string)
| TypeError (msg : string)
| AttributeError (msg : string)
| ValueError (msg : string)
| Exception (cls msg : string).

(** The values found in the mapping returned by [get_object].  The body is
    a stream; it carries what [read()] will answer. *)
Inductive pyval : Type :=
| PNone
| PStr (s : string)
| PInt (z : Z)
| PDict (d : gmap string pyval)
| PStreamingBody (content : exn + list byte).

(** A [str] that may be [None]: truthiness and the [or] operator. *)
Definition truthy (x : option string) : bool :=
  match x with
  | Some s => negb (String.eqb s "")
  | None => false
  end.

(** [x or y] *)
Definition py_or (x y : option string) : option string :=
  if truthy x then x else y.

(** [x or d] for a literal [d] *)
Definition py_or_lit (x : option string) (d : string) : string :=
  match x with
  | Some s => if String.eqb s "" then d else s
  | None => d
  end.

(** A pure step answers a value or the exception it raises. *)
#[local] Instance exn_bind : MBind (sum exn) := fun A B f r =>
  match r with
  | inl e => inl e
  | inr a => f a
  end.

(** An argument or an environment variable counts as given when it holds a
    non-empty string: [None] and the empty string are the two values that
    [or] passes over. *)
Definition given (x : option string) : Prop := exists s, x = Some s /\ s <> "".

(** How an f-string renders a [str] that may be [None]. *)
Definition fmt (x : option string) : string :=
  match x with
  | Some s => s
  | None => "None"
  end.

(** ** Strings, as [urllib.parse] uses them

    A Python [str] is a [string] here: a sequence of characters with codes
    below 256. *)

Module Str.

(** [s[:n]] *)
Fixpoint take (n : nat) (s : string) : string :=
  match n, s with
  | S n', String c s' => String c (take n' s')
  | _, _ => ""
  end.

(** [s[n:]] *)
Fixpoint drop (n : nat) (s : string) : string :=
  match n, s with
  | S n', String _ s' => drop n' s'
  | _, _ => s
  end.

(** [s.find(c)], [None] for -1 *)
Fixpoint find (c : ascii) (s : string) : option nat :=
  match s with
  | EmptyString => None
  | String d s' => if Ascii.eqb d c then Some 0%nat else option_map S (find c s')
  end.

(** [s.find(c, start)] *)
Definition find_from (c : ascii) (start : nat) (s : string) : option nat :=
  option_map (fun i => (start + i)%nat) (find c (drop start s)).

(** [s.rfind(c)] *)
Fixpoint rfind (c : ascii) (s : string) : option nat :=
  match s with
  | EmptyString => None
  | String d s' =>
      match rfind c s' with
      | Some i => Some (S i)
      | None => if Ascii.eqb d c then Some 0%nat else None
      end
  end.

(** [c in s] *)
Definition contains (c : ascii) (s : string) : bool :=
  match find c s with Some _ => true | None => false end.

(** [s.lstrip(chars)] for the set of characters [p] *)
Fixpoint lstrip (p : ascii -> bool) (s : string) : string :=
  match s with
  | EmptyString => ""
  | String c s' => if p c then lstrip p s' else s
  end.

Fixpoint rev_onto (s acc : string) : string :=
  match s with
  | EmptyString => acc
  | String c s' => rev_onto s' (String c acc)
  end.

Definition rev (s : string) : string := rev_onto s "".

(** [s.strip(chars)] *)
Definition strip (p : ascii -> bool) (s : string) : string :=
  rev (lstrip p (rev (lstrip p s))).

(** [s.replace(c, "")] *)
Fixpoint remove (c : ascii) (s : string) : string :=
  match s with
  | EmptyString => ""
  | String d s' => if Ascii.eqb d c then remove c s' else String d (remove c s')
  end.

Fixpoint forallb (p : ascii -> bool) (s : string) : bool :=
  match s with
  | EmptyString => true
  | String c s' => p c && forallb p s'
  end.

Definition code (c : ascii) : nat := nat_of_ascii c.

Definition is_upper (c : ascii) : bool := (65 <=? code c)%nat && (code c <=? 90)%nat.
Definition is_lower (c : ascii) : bool := (97 <=? code c)%nat && (code c <=? 122)%nat.
Definition is_digit (c : ascii) : bool := (48 <=? code c)%nat && (code c <=? 57)%nat.

(** [c.isascii()] *)
Definition isascii (c : ascii) : bool := (code c <? 128)%nat.

Definition lower_char (c : ascii) : ascii :=
  if is_upper c then ascii_of_nat (code c + 32) else c.

(** [s.lower()], on the characters a scheme may hold *)
Fixpoint lower (s : string) : string :=
  match s with
  | EmptyString => ""
  | String c s' => String (lower_char c) (lower s')
  end.

(** [s.split(c, 1)] when [c in s]: the text before and after the first [c] *)
Definition split1 (c : ascii) (s : string) : option (string * string) :=
  match find c s with
  | Some i => Some (take i s, drop (S i) s)
  | None => None
  end.

End Str.

(** ** [urllib.parse.urlparse] *)

Record ParseResult : Type := mkParseResult {
  scheme : string;
  netloc : string;
  path : string;
  params : string;
  query : string;
  fragment : string
}.

Module UrlParse.

Definition uses_params : list string :=
  [""; "ftp"; "hdl"; "prospero"; "http"; "imap"; "https"; "shttp"; "rtsp";
   "rtspu"; "sip"; "sips"; "mms"; "sftp"; "tel"].

(** [c in scheme_chars] *)
Definition scheme_char (c : ascii) : bool :=
  Str.is_lower c || Str.is_upper c || Str.is_digit c
  || Ascii.eqb c "+" || Ascii.eqb c "-" || Ascii.eqb c ".".

(** [c in _WHATWG_C0_CONTROL_OR_SPACE] *)
Definition c0_control_or_space (c : ascii) : bool := (Str.code c <=? 32)%nat.

Definition tab : ascii := ascii_of_nat 9.
Definition cr : ascii := ascii_of_nat 13.
Definition lf : ascii := ascii_of_nat 10.

(** [for b in _UNSAFE_URL_BYTES_TO_REMOVE: s = s.replace(b, "")] *)
Definition remove_unsafe (s : string) : string :=
  Str.remove lf (Str.remove cr (Str.remove tab s)).

Definition in_list (s : string) (l : list string) : bool :=
  existsb (String.eqb s) l.

(** [_splitparams] *)
Definition _splitparams (url : string) : string * string :=
  if Str.contains "/" url then
    match Str.rfind "/" url with
    | Some j =>
        match Str.find_from ";" j url with
        | Some i => (Str.take i url, Str.drop (S i) url)
        | None => (url, "")
        end
    | None => (url, "")
    end
  else
    match Str.find ";" url with
    | Some i => (Str.take i url, Str.drop (S i) url)
    | None => (Str.take (String.length url - 1) url, url)
    end.

(** [_splitnetloc]: the earliest of the delimiters '/', '?', '#' at or
    after [start] ends the network location. *)
Definition _splitnetloc (url : string) (start : nat) : string * string :=
  let step (delim : nat) (c : ascii) : nat :=
    match Str.find_from c start url with
    | Some wdelim => Nat.min delim wdelim
    | None => delim
    end in
  let delim := fold_left step ["/"; "?"; "#"]%char (String.length url) in
  (Str.drop start (Str.take delim url), Str.drop delim url).

Section Checks.

(** The two checks of [urlsplit] that rest on data outside this module:
    [_check_bracketed_netloc] (it asks [ipaddress] whether the bracketed
    host is an IPv6 address) and the NFKC normalisation of
    [_checknetloc] (it asks [unicodedata]).  The first answers the
    exception it raises, if any; the second tells whether the
    normalised netloc is free of the characters '/?#@:'. *)
Variable _check_bracketed_netloc : string -> option exn.
Variable nfkc_netloc_ok : string -> bool.

(** [_checknetloc]: nothing to check on an empty or all-ASCII netloc. *)
Definition _checknetloc (netloc : string) : bool :=
  if String.eqb netloc "" || Str.forallb Str.isascii netloc then true
  else nfkc_netloc_ok netloc.

Definition urlsplit (url scheme0 : string) (allow_fragments : bool)
  : exn + (string * string * string * string * string) :=
  let url := Str.lstrip c0_control_or_space url in
  let scheme0 := Str.strip c0_control_or_space scheme0 in
  let url := remove_unsafe url in
  let scheme0 := remove_unsafe scheme0 in
  let '(scheme1, url) :=
    match Str.find ":" url, url with
    | Some (S i'), String c0 _ =>
        if Str.isascii c0 && (Str.is_lower c0 || Str.is_upper c0)
           && Str.forallb scheme_char (Str.take (S i') url)
        then (Str.lower (Str.take (S i') url), Str.drop (S (S i')) url)
        else (scheme0, url)
    | _, _ => (scheme0, url)
    end in
  let after_netloc (netloc url : string) :=
    let '(url, fragment) :=
      if allow_fragments then
        match Str.split1 "#" url with
        | Some (u, f) => (u, f)
        | None => (url, "")
        end
      else (url, "") in
    let '(url, query) :=
      match Str.split1 "?" url with
      | Some (u, q) => (u, q)
      | None => (url, "")
      end in
    if _checknetloc netloc
    then inr (scheme1, netloc, url, query, fragment)
    else inl (ValueError ("netloc '" ++ netloc ++ "' contains invalid " ++
                          "characters under NFKC normalization")) in
  if String.eqb (Str.take 2 url) "//" then
    let '(netloc, url) := _splitnetloc url 2 in
    let has_open := Str.contains "[" netloc in
    let has_close := Str.contains "]" netloc in
    if (has_open && negb has_close) || (has_close && negb has_open)
    then inl (ValueError "Invalid IPv6 URL")
    else
      match (if has_open && has_close
             then _check_bracketed_netloc netloc else None) with
      | Some e => inl e
      | None => after_netloc netloc url
      end
  else after_netloc "" url.

Definition urlparse (url scheme0 : string) (allow_fragments : bool)
  : exn + ParseResult :=
  match urlsplit url scheme0 allow_fragments with
  | inl e => inl e
  | inr (scheme, netloc, url, query, fragment) =>
      let '(url, params) :=
        if in_list scheme uses_params && Str.contains ";" url
        then _splitparams url
        else (url, "") in
      inr (mkParseResult scheme netloc url params query fragment)
  end.

End Checks.

End UrlParse.

(** A character that a bucket name may hold for the reference
    [s3://bucket/key] to be read back: ASCII, and none of the characters
    that end or bracket a network location or that [urlsplit] removes. *)
Definition bucket_char (c : ascii) : bool :=
  Str.isascii c
  && negb (Ascii.eqb c "/" || Ascii.eqb c "?" || Ascii.eqb c "#"
           || Ascii.eqb c "[" || Ascii.eqb c "]"
           || Ascii.eqb c UrlParse.tab || Ascii.eqb c UrlParse.cr
           || Ascii.eqb c UrlParse.lf).

(** A character that a key may hold: not the query delimiter, and none of
    the characters that [urlsplit] removes. *)
Definition key_char (c : ascii) : bool :=
  negb (Ascii.eqb c "?" || Ascii.eqb c UrlParse.tab || Ascii.eqb c UrlParse.cr
        || Ascii.eqb c UrlParse.lf).

(** [d] is a character other than [c]. *)
Definition other_than (c : ascii) (d : ascii) : bool := negb (Ascii.eqb d c).

(** ** [base64] *)

Module Base64.

Local Open Scope Z_scope.

Definition byte_to_Z (b : byte) : Z := Z.of_N (Byte.to_N b).

Definition byte_of_Z (z : Z) : byte :=
  match Byte.of_N (Z.to_N z) with
  | Some b => b
  | None => x00
  end.

(** The alphabet of RFC 4648, section 4, and the padding character. *)
Definition table : list byte :=
  list_byte_of_string
    "ABCDEFGHIJKLMNOPQRSTUVWXYZabcdefghijklmnopqrstuvwxyz0123456789+/".

Definition pad : byte := "="%byte.

Definition b2a (i : Z) : byte := nth (Z.to_nat i) table pad.

(** The 6-bit group of the 24-bit word [n] that starts at bit [k]. *)
Definition sextet (n k : Z) : byte := b2a (Z.land (Z.shiftr n k) 63).

(** [base64.b64encode]: three bytes make a 24-bit word, written as four
    characters; a last group of one or two bytes is padded with '='. *)
Fixpoint b64encode (s : list byte) : list byte :=
  match s with
  | [] => []
  | [a] =>
      let n := Z.shiftl (byte_to_Z a) 16 in
      [sextet n 18; sextet n 12; pad; pad]
  | [a; b] =>
      let n := Z.lor (Z.shiftl (byte_to_Z a) 16) (Z.shiftl (byte_to_Z b) 8) in
      [sextet n 18; sextet n 12; sextet n 6; pad]
  | a :: b :: c :: rest =>
      let n := Z.lor (Z.lor (Z.shiftl (byte_to_Z a) 16)
                            (Z.shiftl (byte_to_Z b) 8)) (byte_to_Z c) in
      sextet n 18 :: sextet n 12 :: sextet n 6 :: sextet n 0 :: b64encode rest
  end.

(** [bytes.decode('utf-8')] on bytes below 0x80, where UTF-8 maps each
    byte to the character of the same code.  The output of [b64encode]
    lies in that range ([b64encode_ascii] below). *)
Definition decode_utf8 (b : list byte) : string := string_of_list_byte b.

(** The position of a character in the alphabet. *)
Fixpoint index_from (i : Z) (l : list byte) (c : byte) : option Z :=
  match l with
  | [] => None
  | d :: l' => if Byte.eqb d c then Some i else index_from (i + 1) l' c
  end.

Definition a2b (c : byte) : option Z := index_from 0 table c.

Definition word (i1 i2 i3 i4 : Z) : Z :=
  Z.lor (Z.lor (Z.lor (Z.shiftl i1 18) (Z.shiftl i2 12)) (Z.shiftl i3 6)) i4.

Definition octet (n k : Z) : byte := byte_of_Z (Z.land (Z.shiftr n k) 255).

(** Decoding by RFC 4648: the text is read four characters at a time;
    only the last group may end in one or two '='.  [None] when the text
    is not a base64 encoding. *)
Fixpoint decode (s : list byte) : option (list byte) :=
  match s with
  | [] => Some []
  | c1 :: c2 :: c3 :: c4 :: rest =>
      match a2b c1, a2b c2 with
      | Some i1, Some i2 =>
          match a2b c3, a2b c4, rest with
          | Some i3, Some i4, _ =>
              let n := word i1 i2 i3 i4 in
              option_map (fun t => octet n 16 :: octet n 8 :: octet n 0 :: t)
                         (decode rest)
          | Some i3, None, [] =>
              if Byte.eqb c4 pad
              then let n := word i1 i2 i3 0 in Some [octet n 16; octet n 8]
              else None
          | None, None, [] =>
              if Byte.eqb c3 pad && Byte.eqb c4 pad
              then let n := word i1 i2 0 0 in Some [octet n 16]
              else None
          | _, _, _ => None
          end
      | _, _ => None
      end
  | _ => None
  end.

(** [base64.b64decode] of a [str] *)
Definition b64decode (s : string) : option (list byte) :=
  decode (list_byte_of_string s).

End Base64.

(** ** The SDK, the logger and the environment *)

Inductive log_level : Type := DEBUG | WARNING.

(** botocore's frozen credentials: [access_key], [secret_key], [token]. *)
Record ReadOnlyCredentials : Type := mkReadOnlyCredentials {
  access_key : string;
  secret_key : string;
  token : option string
}.

(** The dict built by [get_sagemaker_execution_role_credentials]; it always
    has these three keys, so it is never empty and always truthy. *)
Record SagemakerCredentials : Type := mkSagemakerCredentials {
  AccessKeyId : string;
  SecretAccessKey : string;
  SessionToken : option string
}.

(** [boto3.session.Config(signature_version=...)] *)
Record Config : Type := mkConfig { signature_version : string }.

(** What the module reads but does not own: [core.utils.params.get_env],
    which is not part of this file, and the two checks of [urlsplit]. *)
Record Ambient : Type := mkAmbient {
  get_env : string -> option string;
  check_bracketed_netloc : string -> option exn;
  nfkc_netloc_ok : string -> bool
}.

Section Model.

Context {Session Client Resource : Type}.

(** One constructor per call that leaves the module; the index is the type
    of the answer.  A call into the SDK answers a value or the exception
    it raises. *)
Inductive event : Type -> Type :=
| SessionFrozenCredentials : event (exn + ReadOnlyCredentials)
    (* boto3.Session().get_credentials().get_frozen_credentials() *)
| Logger (level : log_level) (msg : string) : event unit
| Boto3Session (aws_access_key_id aws_secret_access_key aws_session_token : option string)
  : event (exn + Session)
| SessionClient (session : Session) (service : string) (config : Config)
    (settings : gmap string string) : event (exn + Client)
| SessionResource (session : Session) (service : string) (config : Config)
    (settings : gmap string string) : event (exn + Resource)
| ClientGetObject (client : Client) (Bucket Key : string)
  : event (exn + gmap string pyval)
| ClientGeneratePresignedUrl (client : Client) (ClientMethod Bucket Key : string)
    (ExpiresIn : Z) : event (exn + string).

(** A computation: it returns, raises, or makes a call and goes on with the
    answer. *)
Inductive prog (A : Type) : Type :=
| Ret (a : A)
| Raise (e : exn)
| Call {X : Type} (ev : event X) (k : X -> prog A).

Arguments Ret {A} a.
Arguments Raise {A} e.
Arguments Call {A X} ev k.

Fixpoint bind {A B : Type} (p : prog A) (f : A -> prog B) : prog B :=
  match p with
  | Ret a => f a
  | Raise e => Raise e
  | Call ev k => Call ev (fun x => bind (k x) f)
  end.

#[local] Instance prog_ret : MRet prog := @Ret.
#[local] Instance prog_bind : MBind prog := fun A B f p => bind p f.

(** A call into the SDK: its exception, if any, is raised here. *)
Definition call {X : Type} (ev : event (exn + X)) : prog X :=
  Call ev (fun r => match r with inl e => Raise e | inr x => Ret x end).

(** [logger.debug], [logger.warning] *)
Definition logger (level : log_level) (msg : string) : prog unit :=
  Call (Logger level msg) Ret.

(** The body of a [try]: an exception becomes a value for the [except]
    clauses to inspect. *)
Fixpoint try {A : Type} (p : prog A) : prog (exn + A) :=
  match p with
  | Ret a => Ret (inr a)
  | Raise e => Ret (inl e)
  | Call ev k => Call ev (fun x => try (k x))
  end.

(** A pure step that may raise. *)
Definition lift {A : Type} (r : exn + A) : prog A :=
  match r with inl e => Raise e | inr a => Ret a end.

(** *** Subscripts and methods on values *)

Definition type_name (v : pyval) : string :=
  match v with
  | PNone => "NoneType"
  | PStr _ => "str"
  | PInt _ => "int"
  | PDict _ => "dict"
  | PStreamingBody _ => "StreamingBody"
  end.

(** [v[key]] for a string key *)
Definition subscript (v : pyval) (key : string) : exn + pyval :=
  match v with
  | PDict d =>
      match d !! key with
      | Some x => inr x
      | None => inl (KeyError key)
      end
  | PStr _ => inl (TypeError "string indices must be integers")
  | _ => inl (TypeError ("'" +:+ type_name v +:+ "' object is not subscriptable"))
  end.

Definition dquote : string := String (ascii_of_nat 34) EmptyString.

(** ['lit' + v] *)
Definition str_add (lit : string) (v : pyval) : exn + string :=
  match v with
  | PStr s => inr (lit +:+ s)
  | _ => inl (TypeError ("can only concatenate str (not " +:+ dquote
                         +:+ type_name v +:+ dquote +:+ ") to str"))
  end.

(** [v.read()] *)
Definition read (v : pyval) : exn + list byte :=
  match v with
  | PStreamingBody content => content
  | _ => inl (AttributeError ("'" +:+ type_name v +:+ "' object has no attribute 'read'"))
  end.

(** *** The module *)

Variable amb : Ambient.

Definition get_sagemaker_execution_role_credentials
  : prog (option SagemakerCredentials) :=
  r ← try (credentials ← call SessionFrozenCredentials;
           mret {| AccessKeyId := access_key credentials;
                   SecretAccessKey := secret_key credentials;
                   SessionToken := token credentials |});
  match r with
  | inr d => mret (Some d)
  | inl (NoCredentialsError e) =>
      logger WARNING ("Error getting SageMaker execution role credentials: " +:+ e);;
      mret None
  | inl e => Raise e
  end.

Definition get_client_and_resource
    (aws_access_key_id aws_secret_access_key aws_session_token
     region_name s3_endpoint : option string) : prog (Client * Resource) :=
  sagemaker_credentials ← get_sagemaker_execution_role_credentials;
  '(aws_access_key_id, aws_secret_access_key, aws_session_token) ←
    match sagemaker_credentials with
    | Some d =>
        credentials ← get_sagemaker_execution_role_credentials;
        mret (Some (AccessKeyId d), Some (SecretAccessKey d), SessionToken d)
    | None =>
        mret (py_or aws_access_key_id (get_env amb "AWS_ACCESS_KEY_ID"),
              py_or aws_secret_access_key (get_env amb "AWS_SECRET_ACCESS_KEY"),
              py_or aws_session_token (get_env amb "AWS_SESSION_TOKEN"))
    end;
  logger DEBUG
    ("Create boto3 session with "
     +:+ "access key id=" +:+ fmt aws_access_key_id +:+ ", "
     +:+ "secret key="
     +:+ fmt (match aws_secret_access_key with
              | Some s => if truthy (Some s) then Some (Str.take 4 s +:+ "...") else None
              | None => None
              end) +:+ ", "
     +:+ "session token=" +:+ fmt aws_session_token);;
  session ← call (Boto3Session aws_access_key_id aws_secret_access_key aws_session_token);
  let settings : gmap string string :=
    {[ "region_name" := py_or_lit (py_or region_name (get_env amb "S3_region")) "us-east-1" ]} in
  let s3_endpoint := py_or s3_endpoint (get_env amb "S3_ENDPOINT") in
  let settings :=
    match s3_endpoint with
    | Some e => if truthy (Some e) then <[ "endpoint_url" := e ]> settings else settings
    | None => settings
    end in
  client ← call (SessionClient session "s3" (mkConfig "s3v4") settings);
  resource ← call (SessionResource session "s3" (mkConfig "s3v4") settings);
  mret (client, resource).

Definition resolve_s3_url (url : string) (client : Client) (presign : bool)
    (expires_in : Z) : prog string :=
  r ← lift (UrlParse.urlparse (check_bracketed_netloc amb) (nfkc_netloc_ok amb)
              url "" false);
  let bucket_name := netloc r in
  let key := Str.lstrip (Ascii.eqb "/") (path r) in
  if negb presign then
    object ← call (ClientGetObject client bucket_name key);
    content_type ← lift (x ← subscript (PDict object) "ResponseMetadata";
                         y ← subscript x "HTTPHeaders";
                         subscript y "content-type");
    prefix ← lift (str_add "data:" content_type);
    body ← lift (x ← subscript (PDict object) "Body"; read x);
    let object_b64 :=
      prefix +:+ ";base64," +:+ Base64.decode_utf8 (Base64.b64encode body) in
    mret object_b64
  else
    r ← try (call (ClientGeneratePresignedUrl client "get_object" bucket_name key
                     expires_in));
    match r with
    | inl (ClientError exc) =>
        logger WARNING ("Can't generate presigned URL. Reason: " +:+ exc);;
        mret url
    | inl e => Raise e
    | inr presigned_url =>
        logger DEBUG ("Presigned URL " +:+ presigned_url +:+ " generated for " +:+ url);;
        mret presigned_url
    end.

(** [AWS.get_blob_metadata] *)
Definition AWS_get_blob_metadata (url bucket_name : string) (client : option Client)
    (aws_access_key_id aws_secret_access_key aws_session_token
     region_name s3_endpoint : option string) : prog (gmap string pyval) :=
  client ← match client with
           | None =>
               '(client, _) ← get_client_and_resource aws_access_key_id
                                aws_secret_access_key aws_session_token
                                region_name s3_endpoint;
               mret client
           | Some client => mret client
           end;
  object ← call (ClientGetObject client bucket_name url);
  let metadata := object in
  let metadata := delete "Body" metadata in
  let metadata := delete "ResponseMetadata" metadata in
  mret metadata.

(** *** Running a computation *)

(** One call and its answer. *)
Inductive entry : Type :=
| Entry {X : Type} (ev : event X) (answer : X).

(** The world outside: it answers every call and may change as it does. *)
Definition handler (W : Type) : Type := forall X : Type, event X -> W -> W * X.

Record outcome (W A : Type) : Type := mkOutcome {
  world : W;
  trace : list entry;
  result : exn + A
}.

Arguments mkOutcome {W A} world trace result.
Arguments world {W A} o.
Arguments trace {W A} o.
Arguments result {W A} o.

Fixpoint run {W A : Type} (h : handler W) (p : prog A) (w : W) : outcome W A :=
  match p with
  | Ret a => mkOutcome w [] (inr a)
  | Raise e => mkOutcome w [] (inl e)
  | Call ev k =>
      let '(w', x) := h _ ev w in
      let o := run h (k x) w' in
      mkOutcome (world o) (Entry ev x :: trace o) (result o)
  end.

(** *** What a trace shows *)

(** The answers to the credential queries. *)
Definition credential_answer (e : entry) : option (exn + ReadOnlyCredentials) :=
  match e with
  | Entry ev a =>
      match ev in event X return X -> option (exn + ReadOnlyCredentials) with
      | SessionFrozenCredentials => fun a => Some a
      | _ => fun _ => None
      end a
  end.

(** The credentials each [boto3.Session(...)] was built from. *)
Definition session_call (e : entry)
  : option (option string * option string * option string) :=
  match e with
  | Entry (Boto3Session a b c) _ => Some (a, b, c)
  | Entry _ _ => None
  end.

(** The keyword arguments [**settings] of each [session.client] and
    [session.resource]. *)
Definition settings_call (e : entry) : option (gmap string string) :=
  match e with
  | Entry (SessionClient _ _ _ settings) _ => Some settings
  | Entry (SessionResource _ _ _ settings) _ => Some settings
  | Entry _ _ => None
  end.

(** The bucket and key of each [get_object] and [generate_presigned_url]. *)
Definition sdk_target (e : entry) : option (string * string) :=
  match e with
  | Entry (ClientGetObject _ b k) _ => Some (b, k)
  | Entry (ClientGeneratePresignedUrl _ _ b k _) _ => Some (b, k)
  | Entry _ _ => None
  end.

(** The answers of [get_object]. *)
Definition get_object_answer (e : entry) : option (exn + gmap string pyval) :=
  match e with
  | Entry ev a =>
      match ev in event X return X -> option (exn + gmap string pyval) with
      | ClientGetObject _ _ _ => fun a => Some a
      | _ => fun _ => None
      end a
  end.

(** The answers of [generate_presigned_url]. *)
Definition presign_answer (e : entry) : option (exn + string) :=
  match e with
  | Entry ev a =>
      match ev in event X return X -> option (exn + string) with
      | ClientGeneratePresignedUrl _ _ _ _ _ => fun a => Some a
      | _ => fun _ => None
      end a
  end.

(** The records handed to the logger. *)
Definition log_record (e : entry) : option (log_level * string) :=
  match e with
  | Entry (Logger level msg) _ => Some (level, msg)
  | Entry _ _ => None
  end.

Definition credential_answers (tr : list entry) := omap credential_answer tr.
Definition session_calls (tr : list entry) := omap session_call tr.
Definition settings_calls (tr : list entry) := omap settings_call tr.
Definition sdk_targets (tr : list entry) := omap sdk_target tr.
Definition get_object_answers (tr : list entry) := omap get_object_answer tr.
Definition presign_answers (tr : list entry) := omap presign_answer tr.
Definition log_records (tr : list entry) := omap log_record tr.

(** The answers of [boto3.Session(...)], [session.client] and
    [session.resource]. *)
Definition session_answer (e : entry) : option (exn + Session) :=
  match e with
  | Entry ev a =>
      match ev in event X return X -> option (exn + Session) with
      | Boto3Session _ _ _ => fun a => Some a
      | _ => fun _ => None
      end a
  end.

Definition client_answer (e : entry) : option (exn + Client) :=
  match e with
  | Entry ev a =>
      match ev in event X return X -> option (exn + Client) with
      | SessionClient _ _ _ _ => fun a => Some a
      | _ => fun _ => None
      end a
  end.

Definition resource_answer (e : entry) : option (exn + Resource) :=
  match e with
  | Entry ev a =>
      match ev in event X return X -> option (exn + Resource) with
      | SessionResource _ _ _ _ => fun a => Some a
      | _ => fun _ => None
      end a
  end.

Definition session_answers (tr : list entry) := omap session_answer tr.
Definition client_answers (tr : list entry) := omap client_answer tr.
Definition resource_answers (tr : list entry) := omap resource_answer tr.

End Model.

Arguments Ret {Session Client Resource A} a.
Arguments Raise {Session Client Resource A} e.
Arguments Call {Session Client Resource A X} ev k.
Arguments mkOutcome {Session Client Resource W A} world trace result.
Arguments world {Session Client Resource W A} o.
Arguments trace {Session Client Resource W A} o.
Arguments result {Session Client Resource W A} o.

(** ** A scripted SDK

    A concrete world to run the module in: the SDK answers from a script,
    sessions and clients remember how they were built, and the world counts
    the credential queries made so far. *)

Module Script.

Record session : Type := mkSession {
  s_access_key_id : option string;
  s_secret_access_key : option string;
  s_session_token : option string
}.

Record client : Type := mkClient {
  c_session : session;
  c_service : string;
  c_config : Config;
  c_settings : gmap string string
}.

Record sdk : Type := mkSdk {
  frozen_credentials : nat -> exn + ReadOnlyCredentials;
  get_object : string -> string -> exn + gmap string pyval;
  generate_presigned_url : string -> string -> string -> Z -> exn + string
}.

Definition answer (s : sdk) : @handler session client client nat :=
  fun X ev =>
    match ev in event X return nat -> nat * X with
    | SessionFrozenCredentials => fun n => (S n, frozen_credentials s n)
    | Logger _ _ => fun n => (n, tt)
    | Boto3Session a b c => fun n => (n, inr (mkSession a b c))
    | SessionClient ses svc cfg st => fun n => (n, inr (mkClient ses svc cfg st))
    | SessionResource ses svc cfg st => fun n => (n, inr (mkClient ses svc cfg st))
    | ClientGetObject _ b k => fun n => (n, get_object s b k)
    | ClientGeneratePresignedUrl _ m b k t => fun n => (n, generate_presigned_url s m b k t)
    end.

(** An environment that holds the three credential variables, a region and
    no endpoint. *)
Definition environ : gmap string string :=
  {[ "AWS_ACCESS_KEY_ID" := "ENVKEY"; "AWS_SECRET_ACCESS_KEY" := "ENVSECRET";
     "AWS_SESSION_TOKEN" := "ENVTOKEN"; "S3_region" := "eu-west-1" ]}.

Definition ambient : Ambient :=
  mkAmbient (fun name => environ !! name) (fun _ => None) (fun _ => true).

(** The answer of [get_object] for a small PNG-like object. *)
Definition png : gmap string pyval :=
  {[ "Body" := PStreamingBody (inr [x89; x50; x4e; x47]);
     "ContentLength" := PInt 4;
     "ContentType" := PStr "image/png";
     "ResponseMetadata" :=
       PDict {[ "HTTPStatusCode" := PInt 200;
                "HTTPHeaders" := PDict {[ "content-type" := PStr "image/png" ]} ]} ]}.

Definition managed : ReadOnlyCredentials :=
  mkReadOnlyCredentials "ROLEKEY" "ROLESECRET" (Some "ROLETOKEN").

(** Managed credentials are there; objects are served; presigning works. *)
Definition sagemaker : sdk :=
  mkSdk (fun _ => inr managed)
        (fun _ _ => inr png)
        (fun _ b k _ => inr ("https://" +:+ b +:+ ".s3.amazonaws.com/" +:+ k +:+ "?X-Amz-Signature=ab")).

(** No managed credentials; presigning meets a client error. *)
Definition laptop : sdk :=
  mkSdk (fun _ => inl (NoCredentialsError "Unable to locate credentials"))
        (fun _ _ => inr png)
        (fun _ _ _ _ => inl (ClientError "An error occurred (AccessDenied)")).

(** Presigning fails for want of credentials. *)
Definition unsigned : sdk :=
  mkSdk (fun _ => inl (NoCredentialsError "Unable to locate credentials"))
        (fun _ _ => inl (ClientError "An error occurred (NoSuchKey)"))
        (fun _ _ _ _ => inl (NoCredentialsError "Unable to locate credentials")).

Definition a_client : client :=
  mkClient (mkSession None None None) "s3" (mkConfig "s3v4") ∅.

(** The keyword arguments for a MinIO endpoint in the region of [environ]. *)
Definition minio_settings : gmap string string :=
  {[ "region_name" := "eu-west-1"; "endpoint_url" := "http://minio:9000" ]}.

(** A fetched object whose HTTP headers carry no content type. *)
Definition headerless : gmap string pyval :=
  {[ "Body" := PStreamingBody (inr [x89; x50; x4e; x47]);
     "ResponseMetadata" := PDict {[ "HTTPHeaders" := PDict ∅ ]} ]}.

(** A fetched object whose body cannot be read to the end. *)
Definition truncated : gmap string pyval :=
  {[ "Body" := PStreamingBody
                 (inl (Exception "IncompleteReadError"
                         "0 read, but total bytes expected is 4."));
     "ResponseMetadata" :=
       PDict {[ "HTTPHeaders" := PDict {[ "content-type" := PStr "image/png" ]} ]} ]}.

(** An answer of [get_object] that is metadata only. *)
Definition head_only : gmap string pyval :=
  {[ "ContentLength" := PInt 4; "ContentType" := PStr "image/png" ]}.

Definition serves (object : gmap string pyval) : sdk :=
  mkSdk (fun _ => inl (NoCredentialsError "Unable to locate credentials"))
        (fun _ _ => inr object)
        (fun _ _ _ _ => inl (ClientError "An error occurred (AccessDenied)")).

(** The managed credentials are there at the first query; the second query
    answers [second]. *)
Definition then_answers (second : exn + ReadOnlyCredentials) : sdk :=
  mkSdk (fun n => match n with O => inr managed | _ => second end)
        (fun _ _ => inr png)
        (fun _ _ _ _ => inl (ClientError "An error occurred (AccessDenied)")).

(** A world like [answer s], in which [boto3.Session(...)] raises [e]. *)
Definition refusing_sessions (e : exn) (s : sdk) : @handler session client client nat :=
  fun X ev =>
    match ev in event X return nat -> nat * X with
    | SessionFrozenCredentials => answer s _ SessionFrozenCredentials
    | Logger l m => answer s _ (Logger l m)
    | Boto3Session a b c => fun n => (n, inl e)
    | SessionClient ses svc cfg st => answer s _ (SessionClient ses svc cfg st)
    | SessionResource ses svc cfg st => answer s _ (SessionResource ses svc cfg st)
    | ClientGetObject c b k => answer s _ (ClientGetObject c b k)
    | ClientGeneratePresignedUrl c m b k t =>
        answer s _ (ClientGeneratePresignedUrl c m b k t)
    end.

(** A world like [answer s], in which [session.client] raises [e]. *)
Definition refusing_clients (e : exn) (s : sdk) : @handler session client client nat :=
  fun X ev =>
    match ev in event X return nat -> nat * X with
    | SessionFrozenCredentials => answer s _ SessionFrozenCredentials
    | Logger l m => answer s _ (Logger l m)
    | Boto3Session a b c => answer s _ (Boto3Session a b c)
    | SessionClient ses svc cfg st => fun n => (n, inl e)
    | SessionResource ses svc cfg st => answer s _ (SessionResource ses svc cfg st)
    | ClientGetObject c b k => answer s _ (ClientGetObject c b k)
    | ClientGeneratePresignedUrl c m b k t =>
        answer s _ (ClientGeneratePresignedUrl c m b k t)
    end.

(** The client and resource that [answer laptop] builds from [environ]. *)
Definition env_client : client :=
  mkClient (mkSession (Some "ENVKEY") (Some "ENVSECRET") (Some "ENVTOKEN"))
           "s3" (mkConfig "s3v4") {[ "region_name" := "eu-west-1" ]}.

(** What the SDK raises when the credentials object is missing, when a
    profile is unknown and when an endpoint is malformed. *)
Definition no_credentials_object : exn :=
  AttributeError "'NoneType' object has no attribute 'get_frozen_credentials'".

Definition profile_not_found : exn :=
  Exception "ProfileNotFound" "The config profile (dev) could not be found".

Definition invalid_endpoint : exn := ValueError "Invalid endpoint: minio:9000".

(** Credentials that differ from [managed], as after a rotation. *)
Definition rotated : ReadOnlyCredentials :=
  mkReadOnlyCredentials "NEWKEY" "NEWSECRET" (Some "NEWTOKEN").


End Script.

(** * Properties *)

(** ** Base64: decoding undoes encoding *)

Module Base64Facts.

Import Base64.
Local Open Scope Z_scope.

Lemma byte_to_Z_range (b : byte) : 0 <= byte_to_Z b < 256.
Proof.
  unfold byte_to_Z. pose proof (Byte.to_N_bounded b). lia.
Qed.

Lemma byte_of_to_Z (b : byte) : byte_of_Z (byte_to_Z b) = b.
Proof.
  unfold byte_of_Z, byte_to_Z. rewrite N2Z.id, Byte.of_to_N. reflexivity.
Qed.

Lemma byte_of_Z_eq (z : Z) (b : byte) : z = byte_to_Z b -> byte_of_Z z = b.
Proof. intros ->. apply byte_of_to_Z. Qed.

(** A word below [2 ^ k] shares no bit with a word shifted left by [k]. *)
Lemma land_shiftl_low (hi lo k : Z) :
  0 <= k -> 0 <= lo < 2 ^ k -> Z.land (Z.shiftl hi k) lo = 0.
Proof.
  intros Hk Hlo. apply Z.bits_inj'. intros i Hi.
  rewrite Z.land_spec, Z.bits_0.
  destruct (Z.ltb_spec i k) as [Hlt | Hge].
  - rewrite Z.shiftl_spec_low by assumption. reflexivity.
  - replace (Z.testbit lo i) with false; [apply andb_false_r |].
    symmetry. destruct (Z.eq_dec lo 0) as [-> | Hne]; [apply Z.bits_0 |].
    apply Z.bits_above_log2; [lia |].
    apply Z.lt_le_trans with k; [| assumption].
    apply Z.log2_lt_pow2; lia.
Qed.

(** So [lor] adds them. *)
Lemma lor_shiftl_add (hi lo k : Z) :
  0 <= k -> 0 <= lo < 2 ^ k -> Z.lor (Z.shiftl hi k) lo = hi * 2 ^ k + lo.
Proof.
  intros Hk Hlo.
  rewrite <- Z.shiftl_mul_pow2 by assumption.
  rewrite <- Z.lxor_lor by (apply land_shiftl_low; assumption).
  symmetry. apply Z.add_nocarry_lxor, land_shiftl_low; assumption.
Qed.

Lemma shiftr_land_mod (n k m : Z) :
  0 <= k -> 0 <= m -> Z.land (Z.shiftr n k) (Z.ones m) = (n / 2 ^ k) mod 2 ^ m.
Proof.
  intros Hk Hm. rewrite Z.land_ones by assumption.
  rewrite Z.shiftr_div_pow2 by assumption. reflexivity.
Qed.

Lemma sextet_eq (n k : Z) : 0 <= k -> sextet n k = b2a ((n / 2 ^ k) mod 64).
Proof.
  intros Hk. unfold sextet. change 63 with (Z.ones 6).
  rewrite shiftr_land_mod by lia. reflexivity.
Qed.

Lemma octet_eq (n k : Z) : 0 <= k -> octet n k = byte_of_Z ((n / 2 ^ k) mod 256).
Proof.
  intros Hk. unfold octet. change 255 with (Z.ones 8).
  rewrite shiftr_land_mod by lia. reflexivity.
Qed.

Lemma word_eq (i1 i2 i3 i4 : Z) :
  0 <= i2 < 64 -> 0 <= i3 < 64 -> 0 <= i4 < 64 ->
  word i1 i2 i3 i4 = i1 * 262144 + i2 * 4096 + i3 * 64 + i4.
Proof.
  intros H2 H3 H4. unfold word.
  rewrite (Z.shiftl_mul_pow2 i2), (Z.shiftl_mul_pow2 i3) by lia.
  rewrite lor_shiftl_add by lia.
  replace (i1 * 2 ^ 18 + i2 * 2 ^ 12) with ((i1 * 64 + i2) * 2 ^ 12) by lia.
  rewrite <- (Z.shiftl_mul_pow2 (i1 * 64 + i2)) by lia.
  rewrite lor_shiftl_add by lia.
  replace ((i1 * 64 + i2) * 2 ^ 12 + i3 * 2 ^ 6)
    with (((i1 * 64 + i2) * 64 + i3) * 2 ^ 6) by lia.
  rewrite <- (Z.shiftl_mul_pow2 ((i1 * 64 + i2) * 64 + i3)) by lia.
  rewrite lor_shiftl_add by lia. lia.
Qed.

(** The alphabet has 64 distinct characters, none of them the padding. *)
Lemma a2b_b2a (i : Z) : 0 <= i < 64 -> a2b (b2a i) = Some i /\ b2a i <> pad.
Proof.
  intros Hi.
  assert (Hall : forallb (fun j => match a2b (b2a j) with
                                   | Some j' => Z.eqb j j' && negb (Byte.eqb (b2a j) pad)
                                   | None => false
                                   end)
                         (map Z.of_nat (seq 0 64)) = true) by (vm_compute; reflexivity).
  rewrite forallb_forall in Hall.
  specialize (Hall i).
  assert (Hin : In i (map Z.of_nat (seq 0 64))).
  { apply in_map_iff. exists (Z.to_nat i). split; [lia |]. apply in_seq. lia. }
  apply Hall in Hin. destruct (a2b (b2a i)) as [j |]; [| discriminate].
  apply andb_true_iff in Hin as [Heq Hpad]. apply Z.eqb_eq in Heq. subst j.
  split; [reflexivity |]. intros Habs. rewrite Habs in Hpad. discriminate.
Qed.

Lemma a2b_pad : a2b pad = None.
Proof. vm_compute. reflexivity. Qed.

(** The 24-bit word made of three bytes. *)
Lemma word24_eq (a b c : Z) :
  0 <= b < 256 -> 0 <= c < 256 ->
  Z.lor (Z.lor (Z.shiftl a 16) (Z.shiftl b 8)) c = a * 65536 + b * 256 + c.
Proof.
  intros Hb Hc.
  rewrite (Z.shiftl_mul_pow2 b) by lia.
  rewrite lor_shiftl_add by lia.
  replace (a * 2 ^ 16 + b * 2 ^ 8) with ((a * 256 + b) * 2 ^ 8) by lia.
  rewrite <- (Z.shiftl_mul_pow2 (a * 256 + b)) by lia.
  rewrite lor_shiftl_add by lia. lia.
Qed.

Lemma decode_full (c1 c2 c3 c4 : byte) (rest : list byte) (i1 i2 i3 i4 : Z) :
  a2b c1 = Some i1 -> a2b c2 = Some i2 -> a2b c3 = Some i3 -> a2b c4 = Some i4 ->
  decode (c1 :: c2 :: c3 :: c4 :: rest)
  = option_map (fun t => octet (word i1 i2 i3 i4) 16 :: octet (word i1 i2 i3 i4) 8
                         :: octet (word i1 i2 i3 i4) 0 :: t) (decode rest).
Proof.
  intros H1 H2 H3 H4. cbn [decode]. rewrite H1, H2, H3, H4. reflexivity.
Qed.

Lemma decode_pad1 (c1 c2 c3 : byte) (i1 i2 i3 : Z) :
  a2b c1 = Some i1 -> a2b c2 = Some i2 -> a2b c3 = Some i3 ->
  decode [c1; c2; c3; pad]
  = Some [octet (word i1 i2 i3 0) 16; octet (word i1 i2 i3 0) 8].
Proof.
  intros H1 H2 H3. cbn [decode]. rewrite H1, H2, H3, a2b_pad. reflexivity.
Qed.

Lemma decode_pad2 (c1 c2 : byte) (i1 i2 : Z) :
  a2b c1 = Some i1 -> a2b c2 = Some i2 ->
  decode [c1; c2; pad; pad] = Some [octet (word i1 i2 0 0) 16].
Proof.
  intros H1 H2. cbn [decode]. rewrite H1, H2, a2b_pad. reflexivity.
Qed.

Lemma list_ind3 {A : Type} (P : list A -> Prop) :
  P [] -> (forall a, P [a]) -> (forall a b, P [a; b]) ->
  (forall a b c l, P l -> P (a :: b :: c :: l)) ->
  forall l, P l.
Proof.
  intros H0 H1 H2 H3.
  fix IH 1. intros [| a [| b [| c l]]].
  - exact H0.
  - apply H1.
  - apply H2.
  - apply H3, IH.
Qed.

Ltac sextet_index n k H :=
  assert (H : a2b (b2a ((n / 2 ^ k) mod 64)) = Some ((n / 2 ^ k) mod 64))
    by (apply a2b_b2a, Z.mod_pos_bound; lia).

Ltac octets n :=
  rewrite ?octet_eq, ?word_eq by (try apply Z.mod_pos_bound; lia);
  repeat f_equal; apply byte_of_Z_eq; subst n;
  change (2 ^ 18) with 262144; change (2 ^ 16) with 65536;
  change (2 ^ 12) with 4096; change (2 ^ 8) with 256;
  change (2 ^ 6) with 64; change (2 ^ 0) with 1;
  Z.div_mod_to_equations; lia.

(** Decoding the encoding of [s] gives back [s]. *)
Lemma decode_b64encode (s : list byte) : decode (b64encode s) = Some s.
Proof.
  induction s as [| a | a b | a b c rest IH] using list_ind3.
  - reflexivity.
  - cbn [b64encode]. pose proof (byte_to_Z_range a) as Ha.
    replace (Z.shiftl (byte_to_Z a) 16) with (byte_to_Z a * 65536 + 0 * 256 + 0)
      by (rewrite <- word24_eq by lia; rewrite !Z.lor_0_r; reflexivity).
    rewrite !sextet_eq by lia.
    set (n := byte_to_Z a * 65536 + 0 * 256 + 0).
    sextet_index n 18 H1. sextet_index n 12 H2.
    rewrite (decode_pad2 _ _ _ _ H1 H2). octets n.
  - cbn [b64encode]. pose proof (byte_to_Z_range a) as Ha.
    pose proof (byte_to_Z_range b) as Hb.
    replace (Z.lor (Z.shiftl (byte_to_Z a) 16) (Z.shiftl (byte_to_Z b) 8))
      with (byte_to_Z a * 65536 + byte_to_Z b * 256 + 0)
      by (rewrite <- word24_eq by lia; rewrite Z.lor_0_r; reflexivity).
    rewrite !sextet_eq by lia.
    set (n := byte_to_Z a * 65536 + byte_to_Z b * 256 + 0).
    sextet_index n 18 H1. sextet_index n 12 H2. sextet_index n 6 H3.
    rewrite (decode_pad1 _ _ _ _ _ _ H1 H2 H3). octets n.
  - cbn [b64encode]. pose proof (byte_to_Z_range a) as Ha.
    pose proof (byte_to_Z_range b) as Hb. pose proof (byte_to_Z_range c) as Hc.
    rewrite word24_eq by lia. rewrite !sextet_eq by lia.
    set (n := byte_to_Z a * 65536 + byte_to_Z b * 256 + byte_to_Z c).
    sextet_index n 18 H1. sextet_index n 12 H2. sextet_index n 6 H3.
    sextet_index n 0 H4.
    rewrite (decode_full _ _ _ _ _ _ _ _ _ H1 H2 H3 H4), IH. cbn [option_map].
    octets n.
Qed.

(** The encoder writes ASCII only, where UTF-8 decoding keeps every byte
    as the character of the same code. *)
Lemma b2a_ascii (i : Z) : byte_to_Z (b2a i) < 128.
Proof.
  assert (Hall : forallb (fun c => byte_to_Z c <? 128) (pad :: table) = true)
    by (vm_compute; reflexivity).
  rewrite forallb_forall in Hall. apply Z.ltb_lt, Hall.
  unfold b2a. destruct (nth_in_or_default (Z.to_nat i) table pad) as [Hin | ->].
  - right. exact Hin.
  - left. reflexivity.
Qed.

Lemma b64encode_ascii (s : list byte) :
  Forall (fun c => byte_to_Z c < 128) (b64encode s).
Proof.
  assert (Hpad : byte_to_Z pad < 128) by (vm_compute; reflexivity).
  induction s as [| a | a b | a b c rest IH] using list_ind3; cbn [b64encode].
  - constructor.
  - repeat constructor; first [apply b2a_ascii | exact Hpad].
  - repeat constructor; first [apply b2a_ascii | exact Hpad].
  - repeat (constructor; [apply b2a_ascii |]). exact IH.
Qed.

End Base64Facts.

Lemma append_cons (x : ascii) (a b : string) : String x a +:+ b = String x (a +:+ b).
Proof. reflexivity. Qed.

Lemma append_assoc (a b c : string) : (a +:+ b) +:+ c = a +:+ (b +:+ c).
Proof.
  induction a as [| x a IH]; [reflexivity |].
  rewrite !append_cons. f_equal. exact IH.
Qed.

Lemma truthy_given (x : option string) : truthy x = true <-> given x.
Proof.
  unfold truthy, given. destruct x as [s |].
  - destruct (String.eqb_spec s "") as [-> | Hne]; cbn; split.
    + discriminate.
    + intros (s & Hs & Hne). injection Hs as <-. contradiction.
    + eauto.
    + reflexivity.
  - split; [discriminate | intros (s & Hs & _); discriminate].
Qed.

Lemma py_or_given (x y : option string) : given x -> py_or x y = x.
Proof. intros H. apply truthy_given in H. unfold py_or. rewrite H. reflexivity. Qed.

Lemma py_or_not_given (x y : option string) : ~ given x -> py_or x y = y.
Proof.
  intros H. unfold py_or. destruct (truthy x) eqn:E; [| reflexivity].
  apply truthy_given in E. contradiction.
Qed.

Lemma py_or_lit_given (x : option string) (d : string) :
  given x -> Some (py_or_lit x d) = x.
Proof.
  intros (s & -> & Hne). cbn. destruct (String.eqb_spec s ""); [contradiction | reflexivity].
Qed.

Lemma py_or_lit_not_given (x : option string) (d : string) :
  ~ given x -> py_or_lit x d = d.
Proof.
  intros H. destruct x as [s |]; cbn; [| reflexivity].
  destruct (String.eqb_spec s ""); [reflexivity |].
  exfalso. apply H. exists s. auto.
Qed.

Lemma subscript_dict (d : gmap string pyval) (key : string) (v : pyval) :
  d !! key = Some v -> subscript (PDict d) key = inr v.
Proof. intros H. cbn. rewrite H. reflexivity. Qed.

(** What [lstrip('/')] does: it removes every leading slash and nothing else. *)
Lemma lstrip_slash (s : string) :
  exists slashes, s = slashes +:+ Str.lstrip (Ascii.eqb "/") s
                  /\ Str.forallb (Ascii.eqb "/") slashes = true
                  /\ Str.take 1 (Str.lstrip (Ascii.eqb "/") s) <> "/".
Proof.
  induction s as [| c s IH].
  - exists "". cbn. repeat split. discriminate.
  - cbn [Str.lstrip]. destruct (Ascii.eqb_spec "/"%char c) as [<- | Hne].
    + destruct IH as (sl & Hs & Hall & Hhd). exists (String "/" sl).
      rewrite append_cons, <- Hs. cbn. auto.
    + exists "". cbn. repeat split. intros H. injection H as H. congruence.
Qed.

(** ** Strings *)

Module StrFacts.

Lemma append_nil (s : string) : "" +:+ s = s.
Proof. reflexivity. Qed.

Lemma forallb_app (p : ascii -> bool) (a s : string) :
  Str.forallb p (a +:+ s) = Str.forallb p a && Str.forallb p s.
Proof.
  induction a as [| c a IH]; [reflexivity |].
  rewrite append_cons. cbn [Str.forallb]. rewrite IH. apply andb_assoc.
Qed.

Lemma forallb_impl (p q : ascii -> bool) (s : string) :
  (forall c, p c = true -> q c = true) ->
  Str.forallb p s = true -> Str.forallb q s = true.
Proof.
  intros Hpq. induction s as [| c s IH]; [reflexivity |].
  cbn [Str.forallb]. rewrite !andb_true_iff. intros [Hc Hs]. auto.
Qed.

Lemma find_none (c : ascii) (s : string) :
  Str.forallb (other_than c) s = true -> Str.find c s = None.
Proof.
  induction s as [| d s IH]; [reflexivity |].
  cbn [Str.forallb Str.find]. unfold other_than at 1.
  destruct (Ascii.eqb d c); cbn; [discriminate |].
  intros H. rewrite IH by assumption. reflexivity.
Qed.

Lemma find_app (c : ascii) (a s : string) :
  Str.forallb (other_than c) a = true ->
  Str.find c (a +:+ s) = option_map (Nat.add (String.length a)) (Str.find c s).
Proof.
  induction a as [| d a IH].
  - intros _. rewrite append_nil. destruct (Str.find c s); reflexivity.
  - rewrite append_cons. cbn [Str.forallb Str.find String.length].
    unfold other_than at 1. destruct (Ascii.eqb d c); cbn; [discriminate |].
    intros H. rewrite IH by assumption. destruct (Str.find c s); reflexivity.
Qed.

Lemma take_app (a s : string) : Str.take (String.length a) (a +:+ s) = a.
Proof.
  induction a as [| d a IH]; [reflexivity |].
  rewrite append_cons. cbn [String.length Str.take]. rewrite IH. reflexivity.
Qed.

Lemma drop_app (a s : string) : Str.drop (String.length a) (a +:+ s) = s.
Proof.
  induction a as [| d a IH]; [reflexivity |].
  rewrite append_cons. cbn [String.length Str.drop]. exact IH.
Qed.

Lemma take_cons (n : nat) (c : ascii) (s : string) :
  Str.take (S n) (String c s) = String c (Str.take n s).
Proof. reflexivity. Qed.

Lemma drop_cons (n : nat) (c : ascii) (s : string) :
  Str.drop (S n) (String c s) = Str.drop n s.
Proof. reflexivity. Qed.

Lemma drop_app_cons (a s : string) (c : ascii) :
  Str.drop (S (String.length a)) (a +:+ String c s) = s.
Proof.
  induction a as [| d a IH]; [reflexivity |].
  rewrite append_cons. cbn [String.length]. rewrite drop_cons. exact IH.
Qed.

Lemma length_app (a s : string) :
  String.length (a +:+ s) = (String.length a + String.length s)%nat.
Proof.
  induction a as [| d a IH]; [reflexivity |].
  rewrite append_cons. cbn [String.length]. rewrite IH. reflexivity.
Qed.

Lemma remove_app (c : ascii) (a s : string) :
  Str.remove c (a +:+ s) = Str.remove c a +:+ Str.remove c s.
Proof.
  induction a as [| d a IH]; [reflexivity |].
  rewrite append_cons. cbn [Str.remove]. destruct (Ascii.eqb d c); rewrite IH; reflexivity.
Qed.

Lemma remove_id (c : ascii) (s : string) :
  Str.forallb (other_than c) s = true -> Str.remove c s = s.
Proof.
  induction s as [| d s IH]; [reflexivity |].
  cbn [Str.forallb Str.remove]. unfold other_than at 1.
  destruct (Ascii.eqb d c); cbn; [discriminate |].
  intros H. rewrite IH by assumption. reflexivity.
Qed.

(** Removing characters does not bring in a character that was not there. *)
Lemma find_remove_none (c d : ascii) (s : string) :
  Str.find c s = None -> Str.find c (Str.remove d s) = None.
Proof.
  induction s as [| x s IH]; [reflexivity |].
  cbn [Str.find Str.remove]. destruct (Ascii.eqb x c) eqn:Exc; [discriminate |].
  destruct (Str.find c s); [discriminate |]. intros _.
  destruct (Ascii.eqb x d); [apply IH; reflexivity |].
  cbn [Str.find]. rewrite Exc, IH; reflexivity.
Qed.

Lemma lstrip_no_slash (k : string) :
  Str.take 1 k <> "/" -> Str.lstrip (Ascii.eqb "/") k = k.
Proof.
  intros H. destruct k as [| c k]; [reflexivity |].
  cbn [Str.lstrip]. destruct (Ascii.eqb_spec "/"%char c) as [<- | Hne]; [| reflexivity].
  exfalso. apply H. reflexivity.
Qed.

End StrFacts.

(** ** [urlparse] on a well-formed reference *)

Module UrlFacts.

Import StrFacts.

Lemma bucket_char_other_than (c : ascii) (b : string) :
  (c = "/" \/ c = "?" \/ c = "#" \/ c = "[" \/ c = "]"
   \/ c = UrlParse.tab \/ c = UrlParse.cr \/ c = UrlParse.lf)%char ->
  Str.forallb bucket_char b = true -> Str.forallb (other_than c) b = true.
Proof.
  intros Hc. apply forallb_impl. intros d. unfold bucket_char, other_than.
  rewrite andb_true_iff, negb_true_iff, !orb_false_iff.
  intros (_ & ((((((H1 & H2) & H3) & H4) & H5) & H6) & H7) & H8).
  rewrite negb_true_iff.
  destruct Hc as [-> | [-> | [-> | [-> | [-> | [-> | [-> | ->]]]]]]]; assumption.
Qed.

Lemma key_char_other_than (c : ascii) (k : string) :
  (c = "?" \/ c = UrlParse.tab \/ c = UrlParse.cr \/ c = UrlParse.lf)%char ->
  Str.forallb key_char k = true -> Str.forallb (other_than c) k = true.
Proof.
  intros Hc. apply forallb_impl. intros d. unfold key_char, other_than.
  rewrite negb_true_iff, !orb_false_iff.
  intros (((H1 & H2) & H3) & H4). rewrite negb_true_iff.
  destruct Hc as [-> | [-> | [-> | ->]]]; assumption.
Qed.

Lemma remove_unsafe_id (s : string) :
  Str.forallb (other_than UrlParse.tab) s = true ->
  Str.forallb (other_than UrlParse.cr) s = true ->
  Str.forallb (other_than UrlParse.lf) s = true ->
  UrlParse.remove_unsafe s = s.
Proof.
  intros Ht Hc Hl. unfold UrlParse.remove_unsafe.
  rewrite (remove_id UrlParse.tab), (remove_id UrlParse.cr), (remove_id UrlParse.lf);
    auto.
Qed.

Lemma remove_unsafe_app (a s : string) :
  UrlParse.remove_unsafe (a +:+ s)
  = UrlParse.remove_unsafe a +:+ UrlParse.remove_unsafe s.
Proof. unfold UrlParse.remove_unsafe. rewrite !remove_app. reflexivity. Qed.

(** The network location of [//bucket/rest] is the bucket. *)
Lemma splitnetloc_bucket (b rest : string) :
  Str.forallb bucket_char b = true ->
  UrlParse._splitnetloc (String "/" (String "/" (b +:+ String "/" rest))) 2
  = (b, String "/" rest).
Proof.
  intros Hb.
  assert (H1 := bucket_char_other_than "/" b ltac:(auto) Hb).
  assert (H2 := bucket_char_other_than "?" b ltac:(auto) Hb).
  assert (H3 := bucket_char_other_than "#" b ltac:(auto 6) Hb).
  unfold UrlParse._splitnetloc, Str.find_from.
  cbn [Str.drop fold_left String.length].
  rewrite !find_app by assumption. rewrite length_app.
  cbn [Str.find String.length]. rewrite Ascii.eqb_refl.
  replace (Ascii.eqb "/" "?") with false by reflexivity.
  replace (Ascii.eqb "/" "#") with false by reflexivity.
  cbn [option_map].
  set (lb := String.length b).
  assert (Hd : forall o : option nat,
             match option_map (fun i : nat => (2 + i)%nat)
                     (option_map (Nat.add lb) (option_map S o)) with
             | Some wdelim => Nat.min (S (S lb)) wdelim
             | None => S (S lb)
             end = S (S lb)).
  { intros [j |]; cbn [option_map]; [apply Nat.min_l; lia | reflexivity]. }
  replace (Nat.min (S (S (lb + S (String.length rest)))) (2 + (lb + 0)))
    with (S (S lb)) by lia.
  rewrite !Hd.
  cbn [Str.take Str.drop]. subst lb.
  rewrite take_app, drop_app. reflexivity.
Qed.

Section Reference.

Variable check : string -> option exn.
Variable nfkc_ok : string -> bool.

(** What [urlparse] makes of [s3://bucket/key] and of [s3://bucket/key?query]:
    [tail] is empty or starts the query. *)
Lemma urlparse_reference (b k tail : string) :
  Str.forallb bucket_char b = true ->
  Str.forallb key_char k = true ->
  tail = "" \/ (exists q, tail = String "?" q) ->
  exists q,
    UrlParse.urlparse check nfkc_ok ("s3://" +:+ b +:+ "/" +:+ k +:+ tail) "" false
    = inr (mkParseResult "s3" b (String "/" k) "" q "").
Proof.
  intros Hb Hk Htail.
  assert (Hclean :
            UrlParse.remove_unsafe
              (Str.lstrip UrlParse.c0_control_or_space
                 ("s3://" +:+ b +:+ "/" +:+ k +:+ tail))
            = String "s" (String "3" (String ":" (String "/" (String "/"
                (b +:+ String "/" (k +:+ UrlParse.remove_unsafe tail))))))).
  { change ("s3://" +:+ b +:+ "/" +:+ k +:+ tail)
      with (String "s" (String "3" (String ":" (String "/" (String "/"
              (b +:+ String "/" (k +:+ tail))))))).
    cbn [Str.lstrip]. change (UrlParse.c0_control_or_space "s") with false.
    cbv iota.
    change (String "s" (String "3" (String ":" (String "/" (String "/"
              (b +:+ String "/" (k +:+ tail)))))))
      with ("s3://" +:+ (b +:+ ("/" +:+ (k +:+ tail)))).
    rewrite !remove_unsafe_app.
    rewrite (remove_unsafe_id b), (remove_unsafe_id k);
      try (apply bucket_char_other_than; [| assumption]; auto 8);
      try (apply key_char_other_than; [| assumption]; auto 8).
    reflexivity. }
  assert (Htail' : UrlParse.remove_unsafe tail = ""
                   \/ exists q, UrlParse.remove_unsafe tail = String "?" q).
  { destruct Htail as [-> | [q ->]]; [left; reflexivity | right].
    exists (UrlParse.remove_unsafe q). reflexivity. }
  set (t := UrlParse.remove_unsafe tail) in *. clearbody t. clear Htail.
  assert (Hq1 := key_char_other_than "?" k ltac:(auto) Hk).
  assert (Hsplit : exists q,
             (match Str.split1 "?" (String "/" (k +:+ t)) with
              | Some (u, q) => (u, q)
              | None => (String "/" (k +:+ t), "")
              end) = (String "/" k, q)).
  { unfold Str.split1. cbn [Str.find]. change (Ascii.eqb "/" "?") with false.
    cbv iota. rewrite find_app by assumption.
    destruct Htail' as [-> | [q ->]].
    - exists "". cbn [Str.find option_map].
      replace (k +:+ "") with k; [reflexivity |].
      clear. induction k as [| c k IH]; [reflexivity |].
      rewrite append_cons, <- IH. reflexivity.
    - exists q. cbn [Str.find option_map]. rewrite Ascii.eqb_refl.
      cbn [option_map]. rewrite Nat.add_0_r.
      rewrite take_cons, drop_cons, take_app, drop_app_cons. reflexivity. }
  destruct Hsplit as [q Hsplit]. exists q.
  unfold UrlParse.urlparse, UrlParse.urlsplit. cbv zeta.
  rewrite !Hclean.
  cbn [Str.find]. change (Ascii.eqb "s" ":") with false.
  change (Ascii.eqb "3" ":") with false. rewrite Ascii.eqb_refl.
  cbn [option_map]. cbv iota.
  change (Str.isascii "s" && (Str.is_lower "s" || Str.is_upper "s")) with true.
  cbn [Str.take Str.drop Str.forallb Str.lower andb].
  change (UrlParse.scheme_char "s") with true.
  change (UrlParse.scheme_char "3") with true. cbn [andb].
  change (Str.lower_char "s") with "s"%char.
  change (Str.lower_char "3") with "3"%char.
  change (String.eqb "//" "//") with true. cbv iota.
  rewrite splitnetloc_bucket by assumption.
  unfold Str.contains.
  rewrite (find_none "[" b), (find_none "]" b)
    by (apply bucket_char_other_than; [| assumption]; auto 8).
  cbn [andb orb negb]. rewrite Hsplit.
  unfold UrlParse._checknetloc.
  replace (Str.forallb Str.isascii b) with true.
  2: { symmetry. revert Hb. apply forallb_impl. intros c. unfold bucket_char.
       rewrite andb_true_iff. tauto. }
  rewrite orb_true_r.
  change (UrlParse.in_list "s3" UrlParse.uses_params) with false.
  reflexivity.
Qed.

(** What [urlparse] makes of a text without a scheme that does not start
    with a slash: there is no network location. *)
Lemma urlparse_without_scheme (c : ascii) (rest : string) :
  UrlParse.c0_control_or_space c = false ->
  c <> "/"%char ->
  Str.contains ":" (String c rest) = false ->
  exists r,
    UrlParse.urlparse check nfkc_ok (String c rest) "" false = inr r
    /\ netloc r = "".
Proof.
  intros Hc0 Hslash Hcolon.
  assert (Hunsafe : forall d, UrlParse.c0_control_or_space d = true ->
                              Ascii.eqb c d = false).
  { intros d Hd. destruct (Ascii.eqb_spec c d) as [-> | _]; [congruence | reflexivity]. }
  assert (Hclean : UrlParse.remove_unsafe
                     (Str.lstrip UrlParse.c0_control_or_space (String c rest))
                   = String c (UrlParse.remove_unsafe rest)).
  { cbn [Str.lstrip]. rewrite Hc0. unfold UrlParse.remove_unsafe.
    cbn [Str.remove]. rewrite (Hunsafe UrlParse.tab) by reflexivity.
    cbn [Str.remove]. rewrite (Hunsafe UrlParse.cr) by reflexivity.
    cbn [Str.remove]. rewrite (Hunsafe UrlParse.lf) by reflexivity.
    reflexivity. }
  assert (Hfind : Str.find ":" (String c (UrlParse.remove_unsafe rest)) = None).
  { revert Hcolon. unfold Str.contains. cbn [Str.find].
    destruct (Ascii.eqb c ":"); [discriminate |].
    destruct (Str.find ":" rest) eqn:E; [discriminate |]. intros _.
    unfold UrlParse.remove_unsafe.
    rewrite (find_remove_none ":" UrlParse.lf); [reflexivity |].
    do 2 apply find_remove_none. exact E. }
  unfold UrlParse.urlparse, UrlParse.urlsplit. cbv zeta.
  rewrite !Hclean, Hfind. cbv iota.
  rewrite take_cons. cbn [String.eqb].
  replace (Ascii.eqb c "/") with false
    by (symmetry; apply Ascii.eqb_neq; assumption).
  cbn [andb]. cbv iota.
  change (UrlParse._checknetloc nfkc_ok "") with true.
  destruct (Str.split1 "?" (String c (UrlParse.remove_unsafe rest))) as [[u q] |];
    cbv iota beta.
  - destruct (UrlParse.in_list _ UrlParse.uses_params && Str.contains ";" u);
      [destruct (UrlParse._splitparams u) |]; eexists; split; reflexivity.
  - destruct (UrlParse.in_list _ UrlParse.uses_params && Str.contains ";" _);
      [destruct (UrlParse._splitparams _) |]; eexists; split; reflexivity.
Qed.

End Reference.

End UrlFacts.

Section Properties.

Context {Session Client Resource W : Type}.
Variable h : @handler Session Client Resource W.
Variable amb : Ambient.

(** A pure step leaves no trace. *)
Lemma run_lift_bind {A B : Type} (r : exn + A) (f : A -> prog B) (w : W) :
  run h (@mbind _ prog_bind _ _ f (lift r)) w
  = match r with
    | inl e => mkOutcome w [] (inl e)
    | inr a => run h (f a) w
    end.
Proof. destruct r; reflexivity. Qed.

(** Run one step: name the answer of the next call, or split on the value
    the computation branches on. *)
Ltac step :=
  match goal with
  | |- context [h ?X ?ev ?w] =>
      let E := fresh "E" in destruct (h X ev w) as [? ?] eqn:E
  | |- context [match ?x with inl _ => _ | inr _ => _ end] => destruct x
  | |- context [match ?x with ClientError _ => _ | _ => _ end] => destruct x
  | |- context [match ?x with tt => _ end] => destruct x
  end.

Ltac reduce :=
  cbn -[UrlParse.urlparse String.append lookup insert singletonM delete
        Base64.b64encode Base64.decode_utf8 py_or py_or_lit truthy fmt Str.take
        subscript str_add read] in *.

Ltac exec := reduce; repeat (rewrite ?run_lift_bind; step; reduce).

(** C1.  Called with [presign=True], whenever the SDK's
    [generate_presigned_url] raises a [ClientError], [resolve_s3_url]
    returns the URL it was given, unchanged: it does not raise.  The
    failure is logged as a warning. *)
Theorem presign_client_error_returns_url
    (url : string) (client : Client) (expires_in : Z) (w : W) (msg : string) :
  In (inl (ClientError msg))
     (presign_answers (trace (run h (resolve_s3_url amb url client true expires_in) w))) ->
  result (run h (resolve_s3_url amb url client true expires_in) w) = inr url
  /\ In (WARNING, "Can't generate presigned URL. Reason: " +:+ msg)
        (log_records (trace (run h (resolve_s3_url amb url client true expires_in) w))).
Proof.
  unfold resolve_s3_url.
  destruct (UrlParse.urlparse _ _ url "" false) as [e | r].
  - exec. intros [].
  - exec. all: intros [H | []]; inversion H; subst; auto.
Qed.

(** C8.  Called with [presign=True], whenever the SDK's
    [generate_presigned_url] answers a URL, [resolve_s3_url] returns that
    very string. *)
Theorem presign_success_returns_presigned_url
    (url : string) (client : Client) (expires_in : Z) (w : W) (presigned_url : string) :
  In (inr presigned_url)
     (presign_answers (trace (run h (resolve_s3_url amb url client true expires_in) w))) ->
  result (run h (resolve_s3_url amb url client true expires_in) w) = inr presigned_url.
Proof.
  unfold resolve_s3_url.
  destruct (UrlParse.urlparse _ _ url "" false) as [e | r].
  - exec. intros [].
  - exec. all: intros [H | []]; inversion H; subst; auto.
Qed.

(** C10.  Called with [presign=True], when [generate_presigned_url] raises
    anything but a [ClientError] (a [NoCredentialsError], say), the
    exception reaches the caller of [resolve_s3_url]: the original URL is
    not returned. *)
Theorem presign_other_error_propagates
    (url : string) (client : Client) (expires_in : Z) (w : W) (e : exn) :
  In (inl e)
     (presign_answers (trace (run h (resolve_s3_url amb url client true expires_in) w))) ->
  (forall msg, e <> ClientError msg) ->
  result (run h (resolve_s3_url amb url client true expires_in) w) = inl e
  /\ result (run h (resolve_s3_url amb url client true expires_in) w) <> inr url.
Proof.
  unfold resolve_s3_url.
  destruct (UrlParse.urlparse _ _ url "" false) as [e' | r].
  - exec. intros [].
  - exec. all: intros [H | []] Hne; inversion H; subst; try (split; [reflexivity | discriminate]).
    exfalso. eapply Hne. reflexivity.
Qed.

(** C3.  For every URL that [urlparse] accepts, the one call that
    [resolve_s3_url] makes on the client names as bucket the netloc of the
    URL and as key its path with the leading slashes stripped: the path is
    a run of slashes followed by the key, and the key does not start with a
    slash.  For [s3://bucket-a/path/to/key] the bucket is [bucket-a] and
    the key is [path/to/key]. *)
Theorem bucket_is_netloc_and_key_is_stripped_path
    (url : string) (client : Client) (presign : bool) (expires_in : Z) (w : W)
    (r : ParseResult) :
  UrlParse.urlparse (check_bracketed_netloc amb) (nfkc_netloc_ok amb) url "" false = inr r ->
  (exists bucket key slashes,
      sdk_targets (trace (run h (resolve_s3_url amb url client presign expires_in) w))
      = [(bucket, key)]
      /\ bucket = netloc r
      /\ path r = slashes +:+ key
      /\ Str.forallb (Ascii.eqb "/") slashes = true
      /\ Str.take 1 key <> "/")
  /\ sdk_targets (trace (run h (resolve_s3_url amb "s3://bucket-a/path/to/key"
                                  client presign expires_in) w))
     = [("bucket-a", "path/to/key")].
Proof.
  intros Hr. split.
  - destruct (lstrip_slash (path r)) as (sl & Hp & Hall & Hhd).
    exists (netloc r), (Str.lstrip (Ascii.eqb "/") (path r)), sl.
    split; [| auto].
    unfold resolve_s3_url. rewrite Hr. destruct presign; exec; reflexivity.
  - unfold resolve_s3_url.
    change (UrlParse.urlparse _ _ "s3://bucket-a/path/to/key" "" false)
      with (@inr exn _ (mkParseResult "s3" "bucket-a" "/path/to/key" "" "" "")).
    destruct presign; exec; reflexivity.
Qed.

(** C2.  Called with [presign=False], when [get_object] answers an object
    that carries a content type in its HTTP headers and a body that reads
    as [body], [resolve_s3_url] returns
    ['data:' + content-type + ';base64,' + payload], and base64-decoding
    the payload gives back exactly [body]. *)
Theorem data_url_round_trip
    (url : string) (client : Client) (expires_in : Z) (w : W)
    (object meta headers : gmap string pyval) (content_type : string)
    (body : list byte) :
  In (inr object)
     (get_object_answers
        (trace (run h (resolve_s3_url amb url client false expires_in) w))) ->
  object !! "ResponseMetadata" = Some (PDict meta) ->
  meta !! "HTTPHeaders" = Some (PDict headers) ->
  headers !! "content-type" = Some (PStr content_type) ->
  object !! "Body" = Some (PStreamingBody (inr body)) ->
  exists payload,
    result (run h (resolve_s3_url amb url client false expires_in) w)
    = inr ("data:" +:+ content_type +:+ ";base64," +:+ payload)
    /\ Base64.b64decode payload = Some body.
Proof.
  unfold resolve_s3_url.
  destruct (UrlParse.urlparse _ _ url "" false) as [e | r]; reduce.
  - intros [].
  - destruct (h _ (ClientGetObject client _ _) w) as [w1 [e | g]]; reduce.
    + intros [H | []]. discriminate.
    + intros H Hmeta Hheaders Htype Hbody.
      assert (g = object) as ->.
      { destruct H as [H | H]; [congruence |].
        repeat (rewrite run_lift_bind in H;
                match type of H with
                | context [match ?x with inl _ => _ | inr _ => _ end] => destruct x
                end; reduce).
        all: destruct H. }
      clear H. rewrite !run_lift_bind.
      rewrite (subscript_dict _ _ _ Hmeta). cbn [mbind exn_bind].
      rewrite (subscript_dict _ _ _ Hheaders). cbn [mbind exn_bind].
      rewrite (subscript_dict _ _ _ Htype). cbn [str_add].
      rewrite !run_lift_bind.
      rewrite (subscript_dict _ _ _ Hbody). cbn [mbind exn_bind read].
      exists (Base64.decode_utf8 (Base64.b64encode body)). split.
      * cbn [run mret prog_ret result]. rewrite append_assoc. reflexivity.
      * unfold Base64.b64decode, Base64.decode_utf8.
        rewrite list_byte_of_string_of_list_byte.
        apply Base64Facts.decode_b64encode.
Qed.

(** C4.  Whatever mapping [get_object] answers, [AWS.get_blob_metadata]
    returns a mapping without the keys ['Body'] and ['ResponseMetadata'],
    in which every other key of the fetched object has its value
    unchanged. *)
Theorem metadata_drops_body_and_response_metadata
    (url bucket_name : string) (client : option Client)
    (aws_access_key_id aws_secret_access_key aws_session_token
     region_name s3_endpoint : option string) (w : W)
    (object : gmap string pyval) :
  In (inr object)
     (get_object_answers
        (trace (run h (AWS_get_blob_metadata amb url bucket_name client
                         aws_access_key_id aws_secret_access_key aws_session_token
                         region_name s3_endpoint) w))) ->
  exists metadata,
    result (run h (AWS_get_blob_metadata amb url bucket_name client
                     aws_access_key_id aws_secret_access_key aws_session_token
                     region_name s3_endpoint) w) = inr metadata
    /\ metadata !! "Body" = None
    /\ metadata !! "ResponseMetadata" = None
    /\ forall key, key <> "Body" -> key <> "ResponseMetadata" ->
                   metadata !! key = object !! key.
Proof.
  unfold AWS_get_blob_metadata, get_client_and_resource,
    get_sagemaker_execution_role_credentials.
  destruct client as [client |]; exec.
  all: try (intros []; fail).
  all: intros [H | []]; inversion H; subst; clear H.
  all: eexists; split; [reflexivity |].
  all: split; [| split].
  all: try (rewrite lookup_delete_ne by discriminate; apply lookup_delete_eq).
  all: try apply lookup_delete_eq.
  all: intros key H1 H2; rewrite !lookup_delete_ne by congruence; reflexivity.
Qed.

(** C5.  When the managed (SageMaker) credentials are available, that is
    when every credential query of the run answers them, the session that
    [get_client_and_resource] constructs is built from their access key,
    secret key and token, whatever the explicit credential arguments. *)
Theorem managed_credentials_take_priority
    (aws_access_key_id aws_secret_access_key aws_session_token
     region_name s3_endpoint : option string) (w : W)
    (managed : ReadOnlyCredentials) :
  (forall a,
      In a (credential_answers
              (trace (run h (get_client_and_resource amb aws_access_key_id
                               aws_secret_access_key aws_session_token
                               region_name s3_endpoint) w))) ->
      a = inr managed) ->
  session_calls
    (trace (run h (get_client_and_resource amb aws_access_key_id
                     aws_secret_access_key aws_session_token
                     region_name s3_endpoint) w))
  = [(Some (access_key managed), Some (secret_key managed), token managed)].
Proof.
  unfold get_client_and_resource, get_sagemaker_execution_role_credentials.
  exec.
  all: intros H.
  all: try (specialize (H _ (or_introl eq_refl)); discriminate).
  all: try (specialize (H _ (or_intror (or_introl eq_refl))); discriminate).
  all: specialize (H _ (or_introl eq_refl)); injection H as ->; reflexivity.
Qed.


(** The keyword arguments of the client and of the resource. *)
Lemma settings_of_client_and_resource
    (aws_access_key_id aws_secret_access_key aws_session_token
     region_name s3_endpoint : option string) (w : W)
    (settings : gmap string string) :
  In settings
     (settings_calls
        (trace (run h (get_client_and_resource amb aws_access_key_id
                         aws_secret_access_key aws_session_token
                         region_name s3_endpoint) w))) ->
  settings !! "region_name"
  = Some (py_or_lit (py_or region_name (get_env amb "S3_region")) "us-east-1")
  /\ settings !! "endpoint_url"
     = if truthy (py_or s3_endpoint (get_env amb "S3_ENDPOINT"))
       then py_or s3_endpoint (get_env amb "S3_ENDPOINT")
       else None.
Proof.
  assert (Hs : forall region (e : option string) (st : gmap string string),
             st = match e with
                  | Some x => if truthy (Some x)
                              then <[ "endpoint_url" := x ]> {[ "region_name" := region ]}
                              else {[ "region_name" := region ]}
                  | None => {[ "region_name" := region ]}
                  end ->
             st !! "region_name" = Some region
             /\ st !! "endpoint_url" = if truthy e then e else None).
  { intros region [x |] st ->; [destruct (truthy (Some x)) |].
    - rewrite lookup_insert_ne by discriminate.
      rewrite lookup_insert_eq, lookup_singleton_eq. auto.
    - rewrite lookup_singleton_eq, lookup_singleton_ne by discriminate. auto.
    - rewrite lookup_singleton_eq, lookup_singleton_ne by discriminate. auto. }
  unfold get_client_and_resource, get_sagemaker_execution_role_credentials.
  exec.
  all: try (intros []; fail).
  all: intros H; apply Hs.
  all: repeat (destruct H as [H | H]; [symmetry; exact H |]); destruct H.
Qed.


(** Only [NoCredentialsError] is recovered: any other exception of the
    credential query (an [AttributeError] on a missing credentials object,
    say) leaves [get_client_and_resource] before a session is built. *)
Lemma credential_query_other_error_propagates
    (aws_access_key_id aws_secret_access_key aws_session_token
     region_name s3_endpoint : option string) (w : W) (e : exn) :
  hd_error (credential_answers
              (trace (run h get_sagemaker_execution_role_credentials w)))
  = Some (inl e) ->
  (forall msg, e <> NoCredentialsError msg) ->
  result (run h (get_client_and_resource amb aws_access_key_id
                   aws_secret_access_key aws_session_token
                   region_name s3_endpoint) w) = inl e
  /\ session_calls
       (trace (run h (get_client_and_resource amb aws_access_key_id
                        aws_secret_access_key aws_session_token
                        region_name s3_endpoint) w)) = [].
Proof.
  unfold get_client_and_resource, get_sagemaker_execution_role_credentials.
  exec.
  all: intros H Hne; inversion H; subst; auto.
  all: exfalso; eapply Hne; reflexivity.
Qed.


(** C9.  The client and the resource are constructed with the region
    resolved in order: the [region_name] argument if given, else the region
    variable of the environment if given, else ['us-east-1']; and with the
    endpoint resolved in order: the [s3_endpoint] argument if given, else
    the endpoint variable if given, else no [endpoint_url] at all. *)
Theorem region_and_endpoint_fall_back_in_order
    (aws_access_key_id aws_secret_access_key aws_session_token
     region_name s3_endpoint : option string) (w : W)
    (settings : gmap string string) :
  In settings
     (settings_calls
        (trace (run h (get_client_and_resource amb aws_access_key_id
                         aws_secret_access_key aws_session_token
                         region_name s3_endpoint) w))) ->
  (given region_name -> settings !! "region_name" = region_name)
  /\ (~ given region_name -> given (get_env amb "S3_region") ->
      settings !! "region_name" = get_env amb "S3_region")
  /\ (~ given region_name -> ~ given (get_env amb "S3_region") ->
      settings !! "region_name" = Some "us-east-1")
  /\ (given s3_endpoint -> settings !! "endpoint_url" = s3_endpoint)
  /\ (~ given s3_endpoint -> given (get_env amb "S3_ENDPOINT") ->
      settings !! "endpoint_url" = get_env amb "S3_ENDPOINT")
  /\ (~ given s3_endpoint -> ~ given (get_env amb "S3_ENDPOINT") ->
      settings !! "endpoint_url" = None).
Proof.
  intros H. apply settings_of_client_and_resource in H as [Hr He].
  rewrite Hr, He. clear Hr He. repeat split.
  - intros Hg. rewrite py_or_given by assumption. apply py_or_lit_given, Hg.
  - intros Hn Hg. rewrite py_or_not_given by assumption. apply py_or_lit_given, Hg.
  - intros Hn Hn'. rewrite py_or_not_given by assumption.
    rewrite py_or_lit_not_given by assumption. reflexivity.
  - intros Hg. rewrite py_or_given by assumption.
    apply truthy_given in Hg. rewrite Hg. reflexivity.
  - intros Hn Hg. rewrite py_or_not_given by assumption.
    apply truthy_given in Hg. rewrite Hg. reflexivity.
  - intros Hn Hn'. rewrite py_or_not_given by assumption.
    destruct (truthy (get_env amb "S3_ENDPOINT")) eqn:E; [| reflexivity].
    apply truthy_given in E. contradiction.
Qed.

(** ** Further properties of the module *)

(** How a computation made of two runs: the second starts in the world the
    first leaves, and an exception of the first ends both. *)
Lemma run_bind {A B : Type} (p : prog A) (f : A -> prog B) (w : W) :
  run h (@mbind _ prog_bind _ _ f p) w
  = match result (run h p w) with
    | inl e => mkOutcome (world (run h p w)) (trace (run h p w)) (inl e)
    | inr a =>
        mkOutcome (world (run h (f a) (world (run h p w))))
                  (trace (run h p w) ++ trace (run h (f a) (world (run h p w))))
                  (result (run h (f a) (world (run h p w))))
    end.
Proof.
  change (@mbind _ prog_bind _ _ f p) with (bind p f).
  revert w. induction p as [a | e | X ev k IH]; intros w.
  - cbn. destruct (run h (f a) w); reflexivity.
  - reflexivity.
  - cbn [bind run]. destruct (h X ev w) as [w' x]. cbn [world trace result].
    rewrite IH. destruct (result (run h (k x) w')); reflexivity.
Qed.

(** X1.  With [presign=False] a failure of [get_object] is not recovered:
    whatever it raises, a [ClientError] included, is what [resolve_s3_url]
    raises, and nothing is logged. *)
Theorem fetch_error_propagates
    (url : string) (client : Client) (expires_in : Z) (w : W) (e : exn) :
  In (inl e)
     (get_object_answers
        (trace (run h (resolve_s3_url amb url client false expires_in) w))) ->
  result (run h (resolve_s3_url amb url client false expires_in) w) = inl e
  /\ log_records (trace (run h (resolve_s3_url amb url client false expires_in) w)) = [].
Proof.
  unfold resolve_s3_url.
  destruct (UrlParse.urlparse _ _ url "" false) as [e' | r].
  - exec. intros [].
  - exec. all: intros [H | []]; inversion H; subst; auto.
Qed.

(** X2.  With [presign=False], an object whose HTTP headers hold no
    ['content-type'] makes [resolve_s3_url] raise [KeyError('content-type')];
    no data URL is produced. *)
Theorem missing_content_type_is_a_key_error
    (url : string) (client : Client) (expires_in : Z) (w : W)
    (object meta headers : gmap string pyval) :
  In (inr object)
     (get_object_answers
        (trace (run h (resolve_s3_url amb url client false expires_in) w))) ->
  object !! "ResponseMetadata" = Some (PDict meta) ->
  meta !! "HTTPHeaders" = Some (PDict headers) ->
  headers !! "content-type" = None ->
  result (run h (resolve_s3_url amb url client false expires_in) w)
  = inl (KeyError "content-type").
Proof.
  unfold resolve_s3_url.
  destruct (UrlParse.urlparse _ _ url "" false) as [e | r]; reduce.
  - intros [].
  - destruct (h _ (ClientGetObject client _ _) w) as [w1 [e | g]]; reduce.
    + intros [H | []]. discriminate.
    + intros H Hmeta Hheaders Htype.
      assert (g = object) as ->.
      { destruct H as [H | H]; [congruence |].
        repeat (rewrite run_lift_bind in H;
                match type of H with
                | context [match ?x with inl _ => _ | inr _ => _ end] => destruct x
                end; reduce).
        all: destruct H. }
      clear H. rewrite !run_lift_bind.
      rewrite (subscript_dict _ _ _ Hmeta). cbn [mbind exn_bind].
      rewrite (subscript_dict _ _ _ Hheaders). cbn [mbind exn_bind].
      cbn [subscript]. rewrite Htype. reflexivity.
Qed.

(** X3.  With [presign=False], when the body of the fetched object cannot
    be read, the exception of [read()] is what [resolve_s3_url] raises. *)
Theorem body_read_error_propagates
    (url : string) (client : Client) (expires_in : Z) (w : W)
    (object meta headers : gmap string pyval) (content_type : string) (e : exn) :
  In (inr object)
     (get_object_answers
        (trace (run h (resolve_s3_url amb url client false expires_in) w))) ->
  object !! "ResponseMetadata" = Some (PDict meta) ->
  meta !! "HTTPHeaders" = Some (PDict headers) ->
  headers !! "content-type" = Some (PStr content_type) ->
  object !! "Body" = Some (PStreamingBody (inl e)) ->
  result (run h (resolve_s3_url amb url client false expires_in) w) = inl e.
Proof.
  unfold resolve_s3_url.
  destruct (UrlParse.urlparse _ _ url "" false) as [e' | r]; reduce.
  - intros [].
  - destruct (h _ (ClientGetObject client _ _) w) as [w1 [e' | g]]; reduce.
    + intros [H | []]. discriminate.
    + intros H Hmeta Hheaders Htype Hbody.
      assert (g = object) as ->.
      { destruct H as [H | H]; [congruence |].
        repeat (rewrite run_lift_bind in H;
                match type of H with
                | context [match ?x with inl _ => _ | inr _ => _ end] => destruct x
                end; reduce).
        all: destruct H. }
      clear H. rewrite !run_lift_bind.
      rewrite (subscript_dict _ _ _ Hmeta). cbn [mbind exn_bind].
      rewrite (subscript_dict _ _ _ Hheaders). cbn [mbind exn_bind].
      rewrite (subscript_dict _ _ _ Htype). cbn [str_add].
      rewrite !run_lift_bind.
      rewrite (subscript_dict _ _ _ Hbody). reflexivity.
Qed.

(** X4.  The two modes do not mix: with [presign=True] the object is never
    fetched, and with [presign=False] no URL is presigned and nothing is
    logged. *)
Theorem presign_and_fetch_are_exclusive
    (url : string) (client : Client) (expires_in : Z) (w : W) :
  get_object_answers
    (trace (run h (resolve_s3_url amb url client true expires_in) w)) = []
  /\ presign_answers
       (trace (run h (resolve_s3_url amb url client false expires_in) w)) = []
  /\ log_records
       (trace (run h (resolve_s3_url amb url client false expires_in) w)) = [].
Proof.
  unfold resolve_s3_url.
  destruct (UrlParse.urlparse _ _ url "" false) as [e | r].
  - exec. auto.
  - repeat split; exec; reflexivity.
Qed.

(** X5.  A URL that [urlparse] rejects makes [resolve_s3_url] raise that
    [ValueError] before anything else happens: the SDK is not called and
    nothing is logged, in either mode. *)
Theorem rejected_url_raises_before_any_call
    (url : string) (client : Client) (presign : bool) (expires_in : Z) (w : W)
    (e : exn) :
  UrlParse.urlparse (check_bracketed_netloc amb) (nfkc_netloc_ok amb) url "" false
  = inl e ->
  result (run h (resolve_s3_url amb url client presign expires_in) w) = inl e
  /\ trace (run h (resolve_s3_url amb url client presign expires_in) w) = [].
Proof.
  intros He. unfold resolve_s3_url. rewrite He. split; reflexivity.
Qed.

(** X6.  The presigning request is made on the client that was passed in,
    for the method ['get_object'] and with the expiry that was passed in;
    it is the first call of the run. *)
Theorem presign_request_arguments
    (url : string) (client : Client) (expires_in : Z) (w : W) (r : ParseResult) :
  UrlParse.urlparse (check_bracketed_netloc amb) (nfkc_netloc_ok amb) url "" false
  = inr r ->
  hd_error (trace (run h (resolve_s3_url amb url client true expires_in) w))
  = Some (Entry (ClientGeneratePresignedUrl client "get_object" (netloc r)
                   (Str.lstrip (Ascii.eqb "/") (path r)) expires_in)
                (snd (h _ (ClientGeneratePresignedUrl client "get_object" (netloc r)
                             (Str.lstrip (Ascii.eqb "/") (path r)) expires_in) w))).
Proof.
  intros Hr. unfold resolve_s3_url. rewrite Hr. reduce.
  destruct (h _ (ClientGeneratePresignedUrl client _ _ _ _) w) as [w1 a].
  reflexivity.
Qed.

(** X7.  When the first credential query succeeds, [get_client_and_resource]
    queries the provider a second time and discards what that query
    answers: if it answers credentials, other ones even, the session is
    still built from the credentials of the first query. *)
Theorem managed_credentials_are_queried_twice
    (aws_access_key_id aws_secret_access_key aws_session_token
     region_name s3_endpoint : option string) (w : W) (c : ReadOnlyCredentials) :
  hd_error (credential_answers
              (trace (run h get_sagemaker_execution_role_credentials w)))
  = Some (inr c) ->
  exists second,
    credential_answers
      (trace (run h (get_client_and_resource amb aws_access_key_id
                       aws_secret_access_key aws_session_token
                       region_name s3_endpoint) w))
    = [inr c; second]
    /\ (forall c2, second = inr c2 ->
                   session_calls
                     (trace (run h (get_client_and_resource amb aws_access_key_id
                                      aws_secret_access_key aws_session_token
                                      region_name s3_endpoint) w))
                   = [(Some (access_key c), Some (secret_key c), token c)]).
Proof.
  unfold get_client_and_resource, get_sagemaker_execution_role_credentials.
  exec.
  all: intros H; inversion H; subst.
  all: eexists; split; [reflexivity |].
  all: intros c2 Hc2; first [discriminate Hc2 | reflexivity].
Qed.

(** X8.  That second query can fail the whole construction: if it raises
    anything but [NoCredentialsError], [get_client_and_resource] raises it
    and builds no session, although the first query had answered
    credentials. *)
Theorem second_credential_query_can_fail_the_construction
    (aws_access_key_id aws_secret_access_key aws_session_token
     region_name s3_endpoint : option string) (w : W)
    (c : ReadOnlyCredentials) (e : exn) :
  credential_answers
    (trace (run h (get_client_and_resource amb aws_access_key_id
                     aws_secret_access_key aws_session_token
                     region_name s3_endpoint) w))
  = [inr c; inl e] ->
  (forall msg, e <> NoCredentialsError msg) ->
  result (run h (get_client_and_resource amb aws_access_key_id
                   aws_secret_access_key aws_session_token
                   region_name s3_endpoint) w) = inl e
  /\ session_calls
       (trace (run h (get_client_and_resource amb aws_access_key_id
                        aws_secret_access_key aws_session_token
                        region_name s3_endpoint) w)) = [].
Proof.
  unfold get_client_and_resource, get_sagemaker_execution_role_credentials.
  exec.
  all: intros H Hne; inversion H; subst; auto.
  all: exfalso; eapply Hne; reflexivity.
Qed.

(** X9.  If the second query raises [NoCredentialsError], a warning is
    logged and the session is still built from the credentials of the
    first query. *)
Theorem second_credential_query_without_credentials
    (aws_access_key_id aws_secret_access_key aws_session_token
     region_name s3_endpoint : option string) (w : W)
    (c : ReadOnlyCredentials) (msg : string) :
  credential_answers
    (trace (run h (get_client_and_resource amb aws_access_key_id
                     aws_secret_access_key aws_session_token
                     region_name s3_endpoint) w))
  = [inr c; inl (NoCredentialsError msg)] ->
  session_calls
    (trace (run h (get_client_and_resource amb aws_access_key_id
                     aws_secret_access_key aws_session_token
                     region_name s3_endpoint) w))
  = [(Some (access_key c), Some (secret_key c), token c)]
  /\ In (WARNING, "Error getting SageMaker execution role credentials: " +:+ msg)
        (log_records
           (trace (run h (get_client_and_resource amb aws_access_key_id
                            aws_secret_access_key aws_session_token
                            region_name s3_endpoint) w))).
Proof.
  unfold get_client_and_resource, get_sagemaker_execution_role_credentials.
  exec.
  all: intros H; inversion H; subst.
  all: try reflexivity.
  all: split; [reflexivity | left; reflexivity].
Qed.

(** X10.  The log shows no more of an explicit secret key than its first
    four characters: two secrets that agree on them leave the same log
    records. *)
Theorem log_shows_four_characters_of_the_secret
    (aws_access_key_id aws_session_token region_name s3_endpoint : option string)
    (secret1 secret2 : string) (w : W) :
  secret1 <> "" -> secret2 <> "" ->
  Str.take 4 secret1 = Str.take 4 secret2 ->
  log_records
    (trace (run h (get_client_and_resource amb aws_access_key_id (Some secret1)
                     aws_session_token region_name s3_endpoint) w))
  = log_records
      (trace (run h (get_client_and_resource amb aws_access_key_id (Some secret2)
                       aws_session_token region_name s3_endpoint) w)).
Proof.
  intros H1 H2 Htake.
  assert (T1 : truthy (Some secret1) = true)
    by (apply truthy_given; exists secret1; auto).
  assert (T2 : truthy (Some secret2) = true)
    by (apply truthy_given; exists secret2; auto).
  unfold get_client_and_resource, get_sagemaker_execution_role_credentials.
  rewrite !(py_or_given (Some secret1)), !(py_or_given (Some secret2))
    by (eexists; eauto).
  exec.
  all: rewrite ?T1, ?T2, ?Htake; reflexivity.
Qed.

(** X11.  When [get_client_and_resource] returns, its last three calls are
    [boto3.Session(...)], [session.client] and [session.resource]: client
    and resource are made from that one session, for the service ['s3'],
    with the signature version ['s3v4'] and the same settings, and the pair
    returned is the pair the SDK answered. *)
Theorem client_and_resource_share_session_and_settings
    (aws_access_key_id aws_secret_access_key aws_session_token
     region_name s3_endpoint : option string) (w : W)
    (client : Client) (resource : Resource) :
  result (run h (get_client_and_resource amb aws_access_key_id
                   aws_secret_access_key aws_session_token
                   region_name s3_endpoint) w) = inr (client, resource) ->
  exists before key_id secret session_token session settings,
    trace (run h (get_client_and_resource amb aws_access_key_id
                    aws_secret_access_key aws_session_token
                    region_name s3_endpoint) w)
    = (before
       ++ [Entry (Boto3Session key_id secret session_token) (inr session);
           Entry (SessionClient session "s3" (mkConfig "s3v4") settings) (inr client);
           Entry (SessionResource session "s3" (mkConfig "s3v4") settings)
                 (inr resource)])%list.
Proof.
  unfold get_client_and_resource, get_sagemaker_execution_role_credentials.
  exec.
  all: intros H; inversion H; subst; clear H.
  all: first [ eexists [_; _; _], _, _, _, _, _; reflexivity
             | eexists [_; _; _; _], _, _, _, _, _; reflexivity ].
Qed.

(** X12.  Nothing is recovered when the SDK refuses to build the session:
    the exception of [boto3.Session(...)] is raised by
    [get_client_and_resource], and neither client nor resource is asked
    for. *)
Theorem session_error_propagates
    (aws_access_key_id aws_secret_access_key aws_session_token
     region_name s3_endpoint : option string) (w : W) (e : exn) :
  In (inl e)
     (session_answers
        (trace (run h (get_client_and_resource amb aws_access_key_id
                         aws_secret_access_key aws_session_token
                         region_name s3_endpoint) w))) ->
  result (run h (get_client_and_resource amb aws_access_key_id
                   aws_secret_access_key aws_session_token
                   region_name s3_endpoint) w) = inl e
  /\ settings_calls
       (trace (run h (get_client_and_resource amb aws_access_key_id
                        aws_secret_access_key aws_session_token
                        region_name s3_endpoint) w)) = [].
Proof.
  unfold get_client_and_resource, get_sagemaker_execution_role_credentials.
  exec.
  all: try (intros []; fail).
  all: intros [H | []]; inversion H; subst; auto.
Qed.

(** X13.  Likewise for the client: the exception of [session.client] is
    raised by [get_client_and_resource], and the resource is not asked
    for. *)
Theorem client_error_propagates
    (aws_access_key_id aws_secret_access_key aws_session_token
     region_name s3_endpoint : option string) (w : W) (e : exn) :
  In (inl e)
     (client_answers
        (trace (run h (get_client_and_resource amb aws_access_key_id
                         aws_secret_access_key aws_session_token
                         region_name s3_endpoint) w))) ->
  result (run h (get_client_and_resource amb aws_access_key_id
                   aws_secret_access_key aws_session_token
                   region_name s3_endpoint) w) = inl e
  /\ resource_answers
       (trace (run h (get_client_and_resource amb aws_access_key_id
                        aws_secret_access_key aws_session_token
                        region_name s3_endpoint) w)) = [].
Proof.
  unfold get_client_and_resource, get_sagemaker_execution_role_credentials.
  exec.
  all: try (intros []; fail).
  all: intros [H | []]; inversion H; subst; auto.
Qed.

(** X14.  The settings handed to the SDK hold a region that is never
    empty, an endpoint only if it is not empty, and no other key. *)
Theorem settings_are_well_formed
    (aws_access_key_id aws_secret_access_key aws_session_token
     region_name s3_endpoint : option string) (w : W)
    (settings : gmap string string) :
  In settings
     (settings_calls
        (trace (run h (get_client_and_resource amb aws_access_key_id
                         aws_secret_access_key aws_session_token
                         region_name s3_endpoint) w))) ->
  (exists region, settings !! "region_name" = Some region /\ region <> "")
  /\ settings !! "endpoint_url" <> Some ""
  /\ (forall key, key <> "region_name" -> key <> "endpoint_url" ->
                  settings !! key = None).
Proof.
  assert (Hs : forall region (e : option string) (st : gmap string string),
             st = match e with
                  | Some x => if truthy (Some x)
                              then <[ "endpoint_url" := x ]> {[ "region_name" := region ]}
                              else {[ "region_name" := region ]}
                  | None => {[ "region_name" := region ]}
                  end ->
             st !! "region_name" = Some region
             /\ st !! "endpoint_url" <> Some ""
             /\ (forall key, key <> "region_name" -> key <> "endpoint_url" ->
                             st !! key = None)).
  { intros region [x |] st ->; [destruct (truthy (Some x)) eqn:T |].
    - rewrite lookup_insert_ne by discriminate.
      rewrite lookup_insert_eq, lookup_singleton_eq. repeat split.
      + intros H. injection H as ->. discriminate.
      + intros key H1 H2. rewrite lookup_insert_ne by congruence.
        apply lookup_singleton_ne. congruence.
    - rewrite lookup_singleton_eq, lookup_singleton_ne by discriminate.
      repeat split; [discriminate |].
      intros key H1 H2. apply lookup_singleton_ne. congruence.
    - rewrite lookup_singleton_eq, lookup_singleton_ne by discriminate.
      repeat split; [discriminate |].
      intros key H1 H2. apply lookup_singleton_ne. congruence. }
  assert (Hregion : forall x : option string, py_or_lit x "us-east-1" <> "").
  { intros [s |]; cbn; [| discriminate].
    destruct (String.eqb_spec s ""); [discriminate | assumption]. }
  intros H.
  assert (Hst : exists region e,
             region <> ""
             /\ settings = match e with
                           | Some x => if truthy (Some x)
                                       then <[ "endpoint_url" := x ]>
                                              {[ "region_name" := region ]}
                                       else {[ "region_name" := region ]}
                           | None => {[ "region_name" := region ]}
                           end).
  { revert H.
    unfold get_client_and_resource, get_sagemaker_execution_role_credentials.
    exec.
    all: try (intros []; fail).
    all: intros H; do 2 eexists; split; [apply Hregion |].
    all: repeat (destruct H as [H | H]; [symmetry; exact H |]); destruct H. }
  destruct Hst as (region & e & Hne & Hst).
  apply Hs in Hst as (H1 & H2 & H3). eauto 6.
Qed.

(** X15.  Given a client, [AWS.get_blob_metadata] makes one call and no
    other: [get_object] on that client, with the bucket name and with the
    [url] argument, unparsed, as the key.  No credentials are queried, no
    session is built, nothing is logged. *)
Theorem metadata_with_a_client_is_one_call
    (url bucket_name : string) (client : Client)
    (aws_access_key_id aws_secret_access_key aws_session_token
     region_name s3_endpoint : option string) (w : W) :
  trace (run h (AWS_get_blob_metadata amb url bucket_name (Some client)
                  aws_access_key_id aws_secret_access_key aws_session_token
                  region_name s3_endpoint) w)
  = [Entry (ClientGetObject client bucket_name url)
           (snd (h _ (ClientGetObject client bucket_name url) w))].
Proof.
  unfold AWS_get_blob_metadata. exec; reflexivity.
Qed.

(** X16.  A failure of [get_object] is what [AWS.get_blob_metadata]
    raises. *)
Theorem metadata_fetch_error_propagates
    (url bucket_name : string) (client : option Client)
    (aws_access_key_id aws_secret_access_key aws_session_token
     region_name s3_endpoint : option string) (w : W) (e : exn) :
  In (inl e)
     (get_object_answers
        (trace (run h (AWS_get_blob_metadata amb url bucket_name client
                         aws_access_key_id aws_secret_access_key aws_session_token
                         region_name s3_endpoint) w))) ->
  result (run h (AWS_get_blob_metadata amb url bucket_name client
                   aws_access_key_id aws_secret_access_key aws_session_token
                   region_name s3_endpoint) w) = inl e.
Proof.
  unfold AWS_get_blob_metadata, get_client_and_resource,
    get_sagemaker_execution_role_credentials.
  destruct client as [client |]; exec.
  all: try (intros []; fail).
  all: intros [H | []]; inversion H; subst; reflexivity.
Qed.

(** X17.  Removing the two fields never fails: an object that has neither
    ['Body'] nor ['ResponseMetadata'] is returned as it is. *)
Theorem metadata_of_an_object_without_the_fields
    (url bucket_name : string) (client : option Client)
    (aws_access_key_id aws_secret_access_key aws_session_token
     region_name s3_endpoint : option string) (w : W)
    (object : gmap string pyval) :
  In (inr object)
     (get_object_answers
        (trace (run h (AWS_get_blob_metadata amb url bucket_name client
                         aws_access_key_id aws_secret_access_key aws_session_token
                         region_name s3_endpoint) w))) ->
  object !! "Body" = None ->
  object !! "ResponseMetadata" = None ->
  result (run h (AWS_get_blob_metadata amb url bucket_name client
                   aws_access_key_id aws_secret_access_key aws_session_token
                   region_name s3_endpoint) w) = inr object.
Proof.
  unfold AWS_get_blob_metadata, get_client_and_resource,
    get_sagemaker_execution_role_credentials.
  destruct client as [client |]; exec.
  all: try (intros []; fail).
  all: intros [H | []] Hb Hr; inversion H; subst; clear H.
  all: rewrite !delete_id; [reflexivity | assumption |].
  all: rewrite delete_id by assumption; assumption.
Qed.

(** X18.  Without a client, [AWS.get_blob_metadata] first does all that
    [get_client_and_resource] does with the same arguments, and then
    fetches the object with the client it got; if the construction raises,
    so does the lookup, and nothing is fetched. *)
Theorem metadata_without_a_client_builds_one
    (url bucket_name : string)
    (aws_access_key_id aws_secret_access_key aws_session_token
     region_name s3_endpoint : option string) (w : W) :
  match result (run h (get_client_and_resource amb aws_access_key_id
                         aws_secret_access_key aws_session_token
                         region_name s3_endpoint) w) with
  | inr (client, _) =>
      trace (run h (AWS_get_blob_metadata amb url bucket_name None
                      aws_access_key_id aws_secret_access_key aws_session_token
                      region_name s3_endpoint) w)
      = (trace (run h (get_client_and_resource amb aws_access_key_id
                         aws_secret_access_key aws_session_token
                         region_name s3_endpoint) w)
         ++ [Entry (ClientGetObject client bucket_name url)
                   (snd (h _ (ClientGetObject client bucket_name url)
                           (world (run h (get_client_and_resource amb aws_access_key_id
                                            aws_secret_access_key aws_session_token
                                            region_name s3_endpoint) w))))])%list
  | inl e =>
      result (run h (AWS_get_blob_metadata amb url bucket_name None
                       aws_access_key_id aws_secret_access_key aws_session_token
                       region_name s3_endpoint) w) = inl e
      /\ trace (run h (AWS_get_blob_metadata amb url bucket_name None
                         aws_access_key_id aws_secret_access_key aws_session_token
                         region_name s3_endpoint) w)
         = trace (run h (get_client_and_resource amb aws_access_key_id
                           aws_secret_access_key aws_session_token
                           region_name s3_endpoint) w)
  end.
Proof.
  unfold AWS_get_blob_metadata. rewrite !run_bind.
  destruct (run h (get_client_and_resource amb aws_access_key_id
                     aws_secret_access_key aws_session_token
                     region_name s3_endpoint) w) as [w1 tr [e | [client resource]]].
  - cbn. auto.
  - cbn. destruct (h _ (ClientGetObject client bucket_name url) w1) as [w2 [e | g]];
      cbn; rewrite app_nil_r; reflexivity.
Qed.

(** X19.  Writing a bucket and a key as [s3://bucket/key] and resolving
    that reference addresses the same bucket and key, for every bucket
    made of [bucket_char]s and every key made of [key_char]s that does not
    start with a slash. *)
Theorem reference_round_trip
    (bucket key : string) (client : Client) (presign : bool) (expires_in : Z)
    (w : W) :
  Str.forallb bucket_char bucket = true ->
  Str.forallb key_char key = true ->
  Str.take 1 key <> "/" ->
  sdk_targets
    (trace (run h (resolve_s3_url amb ("s3://" +:+ bucket +:+ "/" +:+ key)
                     client presign expires_in) w))
  = [(bucket, key)].
Proof.
  intros Hb Hk Hslash.
  destruct (UrlFacts.urlparse_reference (check_bracketed_netloc amb)
              (nfkc_netloc_ok amb) bucket key "" Hb Hk ltac:(auto)) as [q Hq].
  replace (key +:+ "") with key in Hq.
  2: { clear. induction key as [| c k IH]; [reflexivity |].
       rewrite append_cons, <- IH. reflexivity. }
  unfold resolve_s3_url. rewrite Hq.
  destruct presign; exec.
  all: rewrite (StrFacts.lstrip_no_slash key Hslash); reflexivity.
Qed.

(** X20.  A query is not part of the key: the reference
    [s3://bucket/key?query] addresses the same bucket and key as
    [s3://bucket/key], whatever the query. *)
Theorem query_is_dropped_from_the_key
    (bucket key q : string) (client : Client) (presign : bool) (expires_in : Z)
    (w : W) :
  Str.forallb bucket_char bucket = true ->
  Str.forallb key_char key = true ->
  Str.take 1 key <> "/" ->
  sdk_targets
    (trace (run h (resolve_s3_url amb ("s3://" +:+ bucket +:+ "/" +:+ key +:+ "?" +:+ q)
                     client presign expires_in) w))
  = [(bucket, key)].
Proof.
  intros Hb Hk Hslash.
  destruct (UrlFacts.urlparse_reference (check_bracketed_netloc amb)
              (nfkc_netloc_ok amb) bucket key ("?" +:+ q) Hb Hk
              ltac:(right; exists q; reflexivity)) as [q' Hq].
  unfold resolve_s3_url. rewrite Hq.
  destruct presign; exec.
  all: rewrite (StrFacts.lstrip_no_slash key Hslash); reflexivity.
Qed.

(** X21.  A reference written without a scheme, as [bucket/key], is not
    rejected: the bucket it addresses is the empty string. *)
Theorem reference_without_scheme_has_empty_bucket
    (c : ascii) (rest : string) (client : Client) (presign : bool)
    (expires_in : Z) (w : W) :
  UrlParse.c0_control_or_space c = false ->
  c <> "/"%char ->
  Str.contains ":" (String c rest) = false ->
  exists key,
    sdk_targets
      (trace (run h (resolve_s3_url amb (String c rest) client presign expires_in) w))
    = [("", key)].
Proof.
  intros Hc0 Hslash Hcolon.
  destruct (UrlFacts.urlparse_without_scheme (check_bracketed_netloc amb)
              (nfkc_netloc_ok amb) c rest Hc0 Hslash Hcolon) as (r & Hr & Hnet).
  unfold resolve_s3_url. rewrite Hr.
  exists (Str.lstrip (Ascii.eqb "/") (path r)).
  destruct presign; exec.
  all: rewrite Hnet; reflexivity.
Qed.

End Properties.

(** ** The theorems at work on the scripted SDK *)

Import Script.

Lemma presign_client_error_returns_url_witness :
  result (run (answer laptop)
            (resolve_s3_url ambient "s3://bucket-a/path/to/key" a_client true 3600) 0%nat)
  = inr "s3://bucket-a/path/to/key"
  /\ In (WARNING, "Can't generate presigned URL. Reason: An error occurred (AccessDenied)")
        (log_records
           (trace (run (answer laptop)
                     (resolve_s3_url ambient "s3://bucket-a/path/to/key" a_client true 3600)
                     0%nat))).
Proof.
  apply (presign_client_error_returns_url (answer laptop) ambient
           "s3://bucket-a/path/to/key" a_client 3600 0%nat
           "An error occurred (AccessDenied)").
  vm_compute. left. reflexivity.
Defined.

Lemma presign_success_returns_presigned_url_witness :
  result (run (answer sagemaker)
            (resolve_s3_url ambient "s3://bucket-a/path/to/key" a_client true 3600) 0%nat)
  = inr "https://bucket-a.s3.amazonaws.com/path/to/key?X-Amz-Signature=ab".
Proof.
  apply (presign_success_returns_presigned_url (answer sagemaker) ambient).
  vm_compute. left. reflexivity.
Defined.

Lemma presign_other_error_propagates_witness :
  result (run (answer unsigned)
            (resolve_s3_url ambient "s3://bucket-a/path/to/key" a_client true 3600) 0%nat)
  = inl (NoCredentialsError "Unable to locate credentials")
  /\ result (run (answer unsigned)
               (resolve_s3_url ambient "s3://bucket-a/path/to/key" a_client true 3600) 0%nat)
     <> inr "s3://bucket-a/path/to/key".
Proof.
  apply (presign_other_error_propagates (answer unsigned) ambient).
  - vm_compute. left. reflexivity.
  - intros msg. discriminate.
Defined.

Lemma bucket_is_netloc_and_key_is_stripped_path_witness :
  (exists bucket key slashes,
      sdk_targets
        (trace (run (answer sagemaker)
                  (resolve_s3_url ambient "s3://media//scans/0001.png?versionId=7"
                     a_client false 3600) 0%nat))
      = [(bucket, key)]
      /\ bucket = "media"
      /\ "//scans/0001.png" = slashes +:+ key
      /\ Str.forallb (Ascii.eqb "/") slashes = true
      /\ Str.take 1 key <> "/")
  /\ sdk_targets
       (trace (run (answer sagemaker)
                 (resolve_s3_url ambient "s3://bucket-a/path/to/key" a_client false 3600)
                 0%nat))
     = [("bucket-a", "path/to/key")].
Proof.
  apply (bucket_is_netloc_and_key_is_stripped_path (answer sagemaker) ambient
           "s3://media//scans/0001.png?versionId=7" a_client false 3600 0%nat
           (mkParseResult "s3" "media" "//scans/0001.png" "" "versionId=7" "")).
  reflexivity.
Defined.

Lemma data_url_round_trip_witness :
  exists payload,
    result (run (answer sagemaker)
              (resolve_s3_url ambient "s3://bucket-a/path/to/key" a_client false 3600)
              0%nat)
    = inr ("data:" +:+ "image/png" +:+ ";base64," +:+ payload)
    /\ Base64.b64decode payload = Some [x89; x50; x4e; x47].
Proof.
  apply (data_url_round_trip (answer sagemaker) ambient "s3://bucket-a/path/to/key"
           a_client 3600 0%nat png
           {[ "HTTPStatusCode" := PInt 200;
              "HTTPHeaders" := PDict {[ "content-type" := PStr "image/png" ]} ]}
           {[ "content-type" := PStr "image/png" ]}).
  - vm_compute. left. reflexivity.
  - reflexivity.
  - reflexivity.
  - reflexivity.
  - reflexivity.
Defined.

Lemma metadata_drops_body_and_response_metadata_witness :
  exists metadata,
    result (run (answer laptop)
              (AWS_get_blob_metadata ambient "path/to/key" "bucket-a" None
                 None None None None None) 0%nat) = inr metadata
    /\ metadata !! "Body" = None
    /\ metadata !! "ResponseMetadata" = None
    /\ forall key, key <> "Body" -> key <> "ResponseMetadata" ->
                   metadata !! key = png !! key.
Proof.
  apply (metadata_drops_body_and_response_metadata (answer laptop) ambient).
  vm_compute. left. reflexivity.
Defined.

Lemma managed_credentials_take_priority_witness :
  session_calls
    (trace (run (answer sagemaker)
              (get_client_and_resource ambient (Some "EXPLICITKEY")
                 (Some "EXPLICITSECRET") None None None) 0%nat))
  = [(Some "ROLEKEY", Some "ROLESECRET", Some "ROLETOKEN")].
Proof.
  apply (managed_credentials_take_priority (answer sagemaker) ambient
           (Some "EXPLICITKEY") (Some "EXPLICITSECRET") None None None 0%nat managed).
  intros a H. vm_compute in H. destruct H as [<- | [<- | []]]; reflexivity.
Defined.




Lemma region_and_endpoint_fall_back_in_order_witness :
  (given None -> minio_settings !! "region_name" = None)
  /\ (~ given None -> given (get_env ambient "S3_region") ->
      minio_settings !! "region_name" = get_env ambient "S3_region")
  /\ (~ given None -> ~ given (get_env ambient "S3_region") ->
      minio_settings !! "region_name" = Some "us-east-1")
  /\ (given (Some "http://minio:9000") ->
      minio_settings !! "endpoint_url" = Some "http://minio:9000")
  /\ (~ given (Some "http://minio:9000") -> given (get_env ambient "S3_ENDPOINT") ->
      minio_settings !! "endpoint_url" = get_env ambient "S3_ENDPOINT")
  /\ (~ given (Some "http://minio:9000") -> ~ given (get_env ambient "S3_ENDPOINT") ->
      minio_settings !! "endpoint_url" = None).
Proof.
  apply (region_and_endpoint_fall_back_in_order (answer laptop) ambient
           None None None None (Some "http://minio:9000") 0%nat minio_settings).
  vm_compute. left. reflexivity.
Defined.

Lemma fetch_error_propagates_witness :
  result (run (answer unsigned)
            (resolve_s3_url ambient "s3://bucket-a/path/to/key" a_client false 3600)
            0%nat)
  = inl (ClientError "An error occurred (NoSuchKey)")
  /\ log_records
       (trace (run (answer unsigned)
                 (resolve_s3_url ambient "s3://bucket-a/path/to/key" a_client false 3600)
                 0%nat)) = [].
Proof.
  apply (fetch_error_propagates (answer unsigned) ambient).
  vm_compute. left. reflexivity.
Defined.

Lemma missing_content_type_is_a_key_error_witness :
  result (run (answer (serves headerless))
            (resolve_s3_url ambient "s3://bucket-a/path/to/key" a_client false 3600)
            0%nat)
  = inl (KeyError "content-type").
Proof.
  apply (missing_content_type_is_a_key_error (answer (serves headerless)) ambient
           "s3://bucket-a/path/to/key" a_client 3600 0%nat headerless
           {[ "HTTPHeaders" := PDict ∅ ]} ∅).
  - vm_compute. left. reflexivity.
  - reflexivity.
  - reflexivity.
  - reflexivity.
Defined.

Lemma body_read_error_propagates_witness :
  result (run (answer (serves truncated))
            (resolve_s3_url ambient "s3://bucket-a/path/to/key" a_client false 3600)
            0%nat)
  = inl (Exception "IncompleteReadError" "0 read, but total bytes expected is 4.").
Proof.
  apply (body_read_error_propagates (answer (serves truncated)) ambient
           "s3://bucket-a/path/to/key" a_client 3600 0%nat truncated
           {[ "HTTPHeaders" := PDict {[ "content-type" := PStr "image/png" ]} ]}
           {[ "content-type" := PStr "image/png" ]} "image/png").
  - vm_compute. left. reflexivity.
  - reflexivity.
  - reflexivity.
  - reflexivity.
  - reflexivity.
Defined.

Lemma rejected_url_raises_before_any_call_witness :
  result (run (answer sagemaker)
            (resolve_s3_url ambient "s3://[bucket-a/path/to/key" a_client true 3600)
            0%nat)
  = inl (ValueError "Invalid IPv6 URL")
  /\ trace (run (answer sagemaker)
              (resolve_s3_url ambient "s3://[bucket-a/path/to/key" a_client true 3600)
              0%nat) = [].
Proof.
  apply (rejected_url_raises_before_any_call (answer sagemaker) ambient).
  reflexivity.
Defined.

Lemma presign_request_arguments_witness :
  hd_error (trace (run (answer sagemaker)
                     (resolve_s3_url ambient "s3://bucket-a/path/to/key" a_client true 60)
                     0%nat))
  = Some (Entry (ClientGeneratePresignedUrl a_client "get_object" "bucket-a"
                   "path/to/key" 60)
                (snd (answer sagemaker _
                        (ClientGeneratePresignedUrl a_client "get_object" "bucket-a"
                           "path/to/key" 60) 0%nat))).
Proof.
  apply (presign_request_arguments (answer sagemaker) ambient
           "s3://bucket-a/path/to/key" a_client 60 0%nat
           (mkParseResult "s3" "bucket-a" "/path/to/key" "" "" "")).
  reflexivity.
Defined.

Lemma managed_credentials_are_queried_twice_witness :
  credential_answers
    (trace (run (answer (then_answers (inr rotated)))
              (get_client_and_resource ambient None None None None None) 0%nat))
  = [inr managed; inr rotated]
  /\ session_calls
       (trace (run (answer (then_answers (inr rotated)))
                 (get_client_and_resource ambient None None None None None) 0%nat))
     = [(Some "ROLEKEY", Some "ROLESECRET", Some "ROLETOKEN")].
Proof.
  destruct (managed_credentials_are_queried_twice (answer (then_answers (inr rotated)))
              ambient None None None None None 0%nat managed eq_refl)
    as (second & Hanswers & Hsession).
  assert (Hsecond : [inr managed; inr rotated] = [inr managed; second])
    by exact Hanswers.
  injection Hsecond as <-.
  split; [exact Hanswers | apply (Hsession rotated); reflexivity].
Defined.

Lemma second_credential_query_can_fail_the_construction_witness :
  result (run (answer (then_answers
                         (inl no_credentials_object)))
            (get_client_and_resource ambient None None None None None) 0%nat)
  = inl no_credentials_object
  /\ session_calls
       (trace (run (answer (then_answers
                              (inl no_credentials_object)))
                 (get_client_and_resource ambient None None None None None) 0%nat))
     = [].
Proof.
  apply (second_credential_query_can_fail_the_construction
           (answer (then_answers
                      (inl no_credentials_object)))
           ambient None None None None None 0%nat managed).
  - reflexivity.
  - intros msg. discriminate.
Defined.

Lemma second_credential_query_without_credentials_witness :
  session_calls
    (trace (run (answer (then_answers
                           (inl (NoCredentialsError "Unable to locate credentials"))))
              (get_client_and_resource ambient (Some "EXPLICITKEY") None None None None)
              0%nat))
  = [(Some "ROLEKEY", Some "ROLESECRET", Some "ROLETOKEN")]
  /\ In (WARNING, "Error getting SageMaker execution role credentials: "
                  +:+ "Unable to locate credentials")
        (log_records
           (trace (run (answer (then_answers
                                  (inl (NoCredentialsError "Unable to locate credentials"))))
                     (get_client_and_resource ambient (Some "EXPLICITKEY") None None
                        None None) 0%nat))).
Proof.
  apply (second_credential_query_without_credentials
           (answer (then_answers
                      (inl (NoCredentialsError "Unable to locate credentials"))))
           ambient (Some "EXPLICITKEY") None None None None 0%nat managed
           "Unable to locate credentials").
  reflexivity.
Defined.

Lemma log_shows_four_characters_of_the_secret_witness :
  log_records
    (trace (run (answer laptop)
              (get_client_and_resource ambient (Some "EXPLICITKEY")
                 (Some "wJalrXUtnFEMI") None None None) 0%nat))
  = log_records
      (trace (run (answer laptop)
                (get_client_and_resource ambient (Some "EXPLICITKEY")
                   (Some "wJalK7MDENG") None None None) 0%nat)).
Proof.
  apply (log_shows_four_characters_of_the_secret (answer laptop) ambient).
  - discriminate.
  - discriminate.
  - reflexivity.
Defined.

Lemma client_and_resource_share_session_and_settings_witness :
  exists before key_id secret session_token session settings,
    trace (run (answer laptop)
             (get_client_and_resource ambient None None None None None) 0%nat)
    = (before
       ++ [Entry (Boto3Session key_id secret session_token) (inr session);
           Entry (SessionClient session "s3" (mkConfig "s3v4") settings)
                 (inr env_client);
           Entry (SessionResource session "s3" (mkConfig "s3v4") settings)
                 (inr env_client)])%list.
Proof.
  apply (client_and_resource_share_session_and_settings (answer laptop) ambient
           None None None None None 0%nat env_client env_client).
  vm_compute. reflexivity.
Defined.

Lemma session_error_propagates_witness :
  result (run (refusing_sessions profile_not_found laptop)
            (get_client_and_resource ambient None None None None None) 0%nat)
  = inl profile_not_found
  /\ settings_calls
       (trace (run (refusing_sessions profile_not_found laptop)
                 (get_client_and_resource ambient None None None None None) 0%nat))
     = [].
Proof.
  apply (session_error_propagates
           (refusing_sessions profile_not_found laptop)
           ambient).
  vm_compute. left. reflexivity.
Defined.

Lemma client_error_propagates_witness :
  result (run (refusing_clients invalid_endpoint laptop)
            (get_client_and_resource ambient None None None None (Some "minio:9000"))
            0%nat)
  = inl invalid_endpoint
  /\ resource_answers
       (trace (run (refusing_clients invalid_endpoint laptop)
                 (get_client_and_resource ambient None None None None
                    (Some "minio:9000")) 0%nat))
     = [].
Proof.
  apply (client_error_propagates
           (refusing_clients invalid_endpoint laptop) ambient).
  vm_compute. left. reflexivity.
Defined.

Lemma settings_are_well_formed_witness :
  (exists region, minio_settings !! "region_name" = Some region /\ region <> "")
  /\ minio_settings !! "endpoint_url" <> Some ""
  /\ (forall key, key <> "region_name" -> key <> "endpoint_url" ->
                  minio_settings !! key = None).
Proof.
  apply (settings_are_well_formed (answer laptop) ambient
           None None None None (Some "http://minio:9000") 0%nat minio_settings).
  vm_compute. left. reflexivity.
Defined.

Lemma metadata_fetch_error_propagates_witness :
  result (run (answer unsigned)
            (AWS_get_blob_metadata ambient "path/to/key" "bucket-a" (Some a_client)
               None None None None None) 0%nat)
  = inl (ClientError "An error occurred (NoSuchKey)").
Proof.
  apply (metadata_fetch_error_propagates (answer unsigned) ambient).
  vm_compute. left. reflexivity.
Defined.

Lemma metadata_of_an_object_without_the_fields_witness :
  result (run (answer (serves head_only))
            (AWS_get_blob_metadata ambient "path/to/key" "bucket-a" (Some a_client)
               None None None None None) 0%nat)
  = inr head_only.
Proof.
  apply (metadata_of_an_object_without_the_fields (answer (serves head_only)) ambient).
  - vm_compute. left. reflexivity.
  - reflexivity.
  - reflexivity.
Defined.

Lemma reference_round_trip_witness :
  sdk_targets
    (trace (run (answer sagemaker)
              (resolve_s3_url ambient ("s3://" +:+ "media.example" +:+ "/"
                                       +:+ "scans/2024/page #1;v2.png")
                 a_client true 3600) 0%nat))
  = [("media.example", "scans/2024/page #1;v2.png")].
Proof.
  apply (reference_round_trip (answer sagemaker) ambient).
  - reflexivity.
  - reflexivity.
  - discriminate.
Defined.

Lemma query_is_dropped_from_the_key_witness :
  sdk_targets
    (trace (run (answer sagemaker)
              (resolve_s3_url ambient ("s3://" +:+ "media" +:+ "/" +:+ "report.pdf"
                                       +:+ "?" +:+ "versionId=3")
                 a_client false 3600) 0%nat))
  = [("media", "report.pdf")].
Proof.
  apply (query_is_dropped_from_the_key (answer sagemaker) ambient).
  - reflexivity.
  - reflexivity.
  - discriminate.
Defined.

Lemma reference_without_scheme_has_empty_bucket_witness :
  exists key,
    sdk_targets
      (trace (run (answer sagemaker)
                (resolve_s3_url ambient (String "m" "edia/report.pdf") a_client true 3600)
                0%nat))
    = [("", key)].
Proof.
  apply (reference_without_scheme_has_empty_bucket (answer sagemaker) ambient).
  - reflexivity.
  - discriminate.
  - reflexivity.
Defined.
